(** * Business rules of the record-keeping API

    A shallow embedding of [BusinessLayer.js]: the validators that guard
    every write of a department, an employee or a timecard, and the
    department update workflow.

    - JavaScript values are an inductive type with the language's notions
      of truthiness, strict equality and string conversion.
    - Time values are integers (milliseconds since the epoch), an invalid
      date is [None]; the calendar functions are the ones of ECMAScript.
    - Asynchronous code is a state-and-exception monad over the state of
      the data layer; every call of the data layer is recorded in a trace. *)

From Stdlib Require Import ZArith QArith String Ascii List Bool Lia.
From Stdlib Require Import DecimalString.
Import ListNotations.
Local Open Scope string_scope.
Local Open Scope Z_scope.

(** ** JavaScript values *)

Inductive value : Type :=
| VUndefined
| VNull
| VBool (b : bool)
| VNum (n : Z)
| VNaN
| VStr (s : string).

(** [!!v]: the falsy values are undefined, null, false, 0, NaN and "". *)
Definition truthy (v : value) : bool :=
  match v with
  | VUndefined | VNull | VNaN => false
  | VBool b => b
  | VNum n => negb (n =? 0)
  | VStr s => negb (String.eqb s "")
  end.

(** [a === b] *)
Definition strict_eq (a b : value) : bool :=
  match a, b with
  | VUndefined, VUndefined => true
  | VNull, VNull => true
  | VBool x, VBool y => Bool.eqb x y
  | VNum x, VNum y => x =? y
  | VStr x, VStr y => String.eqb x y
  | _, _ => false
  end.

(** [a !== b] *)
Definition strict_neq (a b : value) : bool := negb (strict_eq a b).

(** The string a template literal puts in place of [${v}].  [VNum n]
    stands for an integer below 1e21 in magnitude, which JavaScript
    prints with all its digits; beyond that it prints an exponent, which
    is not modelled. *)
Definition ToString (v : value) : string :=
  match v with
  | VUndefined => "undefined"
  | VNull => "null"
  | VBool true => "true"
  | VBool false => "false"
  | VNum n => NilZero.string_of_int (Z.to_int n)
  | VNaN => "NaN"
  | VStr s => s
  end.

(** [s.replace(c, r)] with a one-character pattern: the first occurrence. *)
Fixpoint replace (c r : ascii) (s : string) : string :=
  match s with
  | EmptyString => EmptyString
  | String a s' =>
      if Ascii.eqb a c then String r s' else String a (replace c r s')
  end.

(** [xs.join(sep)] on an array of strings. *)
Fixpoint join (sep : string) (xs : list string) : string :=
  match xs with
  | [] => ""
  | [x] => x
  | x :: rest => x ++ sep ++ join sep rest
  end.

(** [errors.push(msg)] *)
Definition push {A : Type} (xs : list A) (x : A) : list A := xs ++ [x].

(** Numbers that are integers or NaN (date fields, time values). *)
Definition number : Type := option Z.

Definition NaN : number := None.
Definition isNaN (x : number) : bool :=
  match x with None => true | Some _ => false end.

Definition num_lt (x y : number) : bool :=
  match x, y with Some a, Some b => a <? b | _, _ => false end.
Definition num_gt (x y : number) : bool := num_lt y x.
Definition num_ge (x y : number) : bool :=
  match x, y with Some a, Some b => b <=? a | _, _ => false end.
Definition num_eq (x y : number) : bool :=
  match x, y with Some a, Some b => a =? b | _, _ => false end.
Definition num_neq (x y : number) : bool := negb (num_eq x y).
Definition num_sub (x y : number) : number :=
  match x, y with Some a, Some b => Some (a - b) | _, _ => None end.

(** [x || y] on numbers: [x] unless it is 0 or NaN. *)
Definition num_or (x y : number) : number :=
  match x with
  | Some a => if a =? 0 then y else x
  | None => y
  end.

(** A quotient of numbers; the only one in the program is the duration in
    hours, which the code compares with 1.  It is kept exact: the
    difference of two time values is an integer of magnitude below
    2 * 8.64e15, and the double nearest to its quotient by 3600000 is
    below 1 exactly when the quotient is. *)
Definition quotient : Type := option Q.

Definition num_div (x : number) (d : Z) : quotient :=
  match x with Some a => Some (inject_Z a / inject_Z d)%Q | None => None end.

Definition quot_lt (x : quotient) (k : Z) : bool :=
  match x with
  | Some q => negb (Qle_bool (inject_Z k) q)
  | None => false
  end.

(** ** Faults and outcomes *)

(** An [Error] object, as built by [new Error(message)]. *)
Record Error : Type := mkError { message : string }.

(** What a [throw] or a rejected promise carries: an [Error] object, or
    a value that is no object (a data layer may reject with undefined,
    null or a string).  Objects thrown are taken to be [Error] objects. *)
Inductive thrown : Type :=
| ThrownError (e : Error)
| ThrownValue (v : value).
Coercion ThrownError : Error >-> thrown.

(** How a call ends: it returns (an async function resolves) or it throws
    (an async function rejects). *)
Inductive outcome (A : Type) : Type :=
| Return (a : A)
| Throw (e : thrown).
Arguments Return {A} a.
Arguments Throw {A} e.

(** The [TypeError] of the read of a property of undefined or null, with
    the message V8 gives it. *)
Definition TypeError_read (v : value) (property : string) : Error :=
  mkError ("Cannot read properties of " ++ ToString v
           ++ " (reading '" ++ property ++ "')").

(** [`${error.message}`] for a caught [error]: the message of an [Error]
    object; for undefined and null the read of the property throws; any
    other primitive has no such property and the text is "undefined". *)
Definition read_message (error : thrown) : outcome string :=
  match error with
  | ThrownError e => Return (message e)
  | ThrownValue VUndefined => Throw (TypeError_read VUndefined "message")
  | ThrownValue VNull => Throw (TypeError_read VNull "message")
  | ThrownValue _ => Return "undefined"
  end.

Definition raises {A : Type} (o : outcome A) : Prop :=
  exists e, o = Throw e.

(** ** Calendar arithmetic of ECMAScript

    A time value [t] counts milliseconds from 1970-01-01T00:00:00Z.
    [Day], [TimeWithinDay], [WeekDay], [HourFromTime], [YearFromTime],
    [MonthFromTime], [DateFromTime] and [MakeDay] are the abstract
    operations of the language definition, on the proleptic Gregorian
    calendar. *)

Definition msPerSecond : Z := 1000.
Definition msPerMinute : Z := 60000.
Definition msPerHour : Z := 3600000.
Definition msPerDay : Z := 86400000.

Definition Day (t : Z) : Z := t / msPerDay.
Definition TimeWithinDay (t : Z) : Z := t mod msPerDay.
Definition WeekDay (t : Z) : Z := (Day t + 4) mod 7.
Definition HourFromTime (t : Z) : Z := (t / msPerHour) mod 24.
Definition MinFromTime (t : Z) : Z := (t / msPerMinute) mod 60.
Definition SecFromTime (t : Z) : Z := (t / msPerSecond) mod 60.

(** Day number of the civil date [y]-[m]-[d], months counted from 1. *)
Definition days_from_civil (y m d : Z) : Z :=
  let y' := if m <=? 2 then y - 1 else y in
  let era := y' / 400 in
  let yoe := y' - era * 400 in
  let mp := if 2 <? m then m - 3 else m + 9 in
  let doy := (153 * mp + 2) / 5 + d - 1 in
  let doe := yoe * 365 + yoe / 4 - yoe / 100 + doy in
  era * 146097 + doe - 719468.

(** Within a cycle of 400 years that starts on a 1st of March: the year of
    a day of the cycle, and the day within that year. *)
Definition year_of_era (doe : Z) : Z :=
  (doe - doe / 1460 + doe / 36524 - doe / 146096) / 365.
Definition day_of_year (doe : Z) : Z :=
  let yoe := year_of_era doe in
  doe - (365 * yoe + yoe / 4 - yoe / 100).

(** The civil date (year, month from 1, day of month) of a day number. *)
Definition civil_from_days (z : Z) : Z * Z * Z :=
  let z' := z + 719468 in
  let era := z' / 146097 in
  let doe := z' - era * 146097 in
  let yoe := year_of_era doe in
  let doy := day_of_year doe in
  let mp := (5 * doy + 2) / 153 in
  let d := doy - (153 * mp + 2) / 5 + 1 in
  let m := if mp <? 10 then mp + 3 else mp - 9 in
  let y := yoe + era * 400 in
  ((if m <=? 2 then y + 1 else y), m, d).

Definition YearFromTime (t : Z) : Z :=
  let '(y, _, _) := civil_from_days (Day t) in y.
(** Months count from 0 here, as [getMonth] has them. *)
Definition MonthFromTime (t : Z) : Z :=
  let '(_, m, _) := civil_from_days (Day t) in m - 1.
Definition DateFromTime (t : Z) : Z :=
  let '(_, _, d) := civil_from_days (Day t) in d.

(** [MakeDay(year, month, date)], [month] counted from 0 and carried into
    the year when it is out of range. *)
Definition MakeDay (year month date : Z) : Z :=
  let ym := year + month / 12 in
  let mn := month mod 12 in
  days_from_civil ym (mn + 1) 1 + date - 1.

Definition MakeDate (day time : Z) : Z := day * msPerDay + time.

Definition MakeTime (hour min sec ms : Z) : Z :=
  hour * msPerHour + min * msPerMinute + sec * msPerSecond + ms.

(** ** Strings of digits *)

Definition digit (c : ascii) : option Z :=
  let n := Z.of_nat (nat_of_ascii c) in
  if (48 <=? n) && (n <=? 57) then Some (n - 48) else None.

(** The number written by a list of characters when all are digits. *)
Fixpoint digits_from (acc : Z) (cs : list ascii) : option Z :=
  match cs with
  | [] => Some acc
  | c :: rest =>
      match digit c with
      | Some k => digits_from (10 * acc + k) rest
      | None => None
      end
  end.

Definition digits (cs : list ascii) : option Z := digits_from 0 cs.

(** ** The moment library: leap years and month lengths *)

Definition isLeapYear (year : Z) : bool :=
  ((year mod 4 =? 0) && negb (year mod 100 =? 0)) || (year mod 400 =? 0).

(** [daysInMonth(year, month)], [month] counted from 0. *)
Definition daysInMonth (year month : Z) : Z :=
  let modMonth := month mod 12 in
  let year' := year + (month - modMonth) / 12 in
  if modMonth =? 1 then (if isLeapYear year' then 29 else 28)
  else 31 - (modMonth mod 7) mod 2.

(** The year, month and day fields of a string of the exact form
    [YYYY-MM-DD]: four digits, a dash, two digits, a dash, two digits and
    nothing else.  Strict parsing leaves no character unread. *)
Definition fields_YYYY_MM_DD (s : string) : option (Z * Z * Z) :=
  match list_ascii_of_string s with
  | [y1; y2; y3; y4; h1; m1; m2; h2; d1; d2] =>
      if Ascii.eqb h1 "-" && Ascii.eqb h2 "-" then
        match digits [y1; y2; y3; y4], digits [m1; m2], digits [d1; d2] with
        | Some y, Some m, Some d => Some (y, m, d)
        | _, _, _ => None
        end
      else None
  | _ => None
  end.

(** The overflow check on parsed fields: the month, counted from 0, is in
    0..11 and the day exists in that month. *)
Definition checkOverflow (y m d : Z) : bool :=
  if (m - 1 <? 0) || (11 <? m - 1) then false
  else if (d <? 1) || (daysInMonth y (m - 1) <? d) then false
  else true.

(** What strict parsing against the format [YYYY-MM-DD] accepts, as the
    year, the month counted from 1 and the day. *)
Definition parse_YYYY_MM_DD (s : string) : option (Z * Z * Z) :=
  match fields_YYYY_MM_DD s with
  | Some (y, m, d) => if checkOverflow y m d then Some (y, m, d) else None
  | None => None
  end.

(** The ISO weekday, 1 for Monday to 7 for Sunday, of a day number. *)
Definition isoWeekday_of_day (day : Z) : Z := (day + 3) mod 7 + 1.

(** ** Date objects and the validators that only read the clock *)

Section Dates.

(** The offset of local time from UTC in milliseconds, taken as fixed:
    one offset for every instant of a run.  A change of the offset
    (daylight saving) between two instants a validator compares is not
    modelled; what is proved below of lengths of time holds of local
    days and hours as the clock on the wall shows them. *)
Variable LocalTZA : Z.

(** What [new Date(string)] makes of a string: a time value, or NaN for
    a string it cannot read.  Which strings it reads beyond the ISO
    format is left to the JavaScript engine. *)
Variable Date_parse : string -> number.

Definition LocalTime (t : Z) : Z := t + LocalTZA.
Definition UTC (t : Z) : Z := t - LocalTZA.

(** A [Date] object is its time value; NaN is the invalid date. *)
Definition Date : Type := number.

Definition getTime (d : Date) : number := d.
Definition getDay (d : Date) : number :=
  option_map (fun t => WeekDay (LocalTime t)) d.
Definition getHours (d : Date) : number :=
  option_map (fun t => HourFromTime (LocalTime t)) d.
Definition getDate (d : Date) : number :=
  option_map (fun t => DateFromTime (LocalTime t)) d.
Definition getMonth (d : Date) : number :=
  option_map (fun t => MonthFromTime (LocalTime t)) d.
Definition getFullYear (d : Date) : number :=
  option_map (fun t => YearFromTime (LocalTime t)) d.

(** [d.setDate(dt)]: the day of the month is replaced, the month, the
    year and the time of day are kept; [dt] may leave the month. *)
Definition setDate (d : Date) (dt : number) : Date :=
  match d, dt with
  | Some t, Some n =>
      let lt := LocalTime t in
      Some (UTC (MakeDate (MakeDay (YearFromTime lt) (MonthFromTime lt) n)
                          (TimeWithinDay lt)))
  | _, _ => None
  end.

(** [d.setHours(h, m, s, ms)] *)
Definition setHours (d : Date) (h m s ms : Z) : Date :=
  match d with
  | Some t => Some (UTC (MakeDate (Day (LocalTime t)) (MakeTime h m s ms)))
  | None => None
  end.

(** [new Date(y, month, d)] in local time, [month] counted from 0. *)
Definition Date_of_fields (y month d : Z) : Date :=
  Some (UTC (MakeDate (MakeDay y month d) 0)).

(** A moment object is the date it wraps; the invalid moment wraps the
    invalid date. *)
Definition Moment : Type := Date.

(** [moment(input, "YYYY-MM-DD", true)] *)
Definition moment_YYYY_MM_DD (input : string) : Moment :=
  match parse_YYYY_MM_DD input with
  | Some (y, m, d) => Date_of_fields y (m - 1) d
  | None => NaN
  end.

Definition isValid (m : Moment) : bool := negb (isNaN m).
Definition isAfter (a b : Moment) : bool := num_gt a b.
Definition isoWeekday (m : Moment) : number :=
  match m with
  | Some _ => num_or (getDay m) (Some 7)
  | None => NaN
  end.

(** [validateHireDate(hireDate)] at clock reading [now]. *)
Definition validateHireDate (now : Z) (hireDate : string) : outcome unit :=
  let date := moment_YYYY_MM_DD hireDate in
  if negb (isValid date) || isAfter date (Some now) then
    Throw (mkError
      "Hire date must be a valid date and cannot be in the future.")
  else
    let dayOfWeek := isoWeekday date in
    if num_ge dayOfWeek (Some 6) then
      Throw (mkError
        "Hire date must be a Monday through Friday. Weekends are not allowed.")
    else Return tt.

(** The loop of [validateStartTime]:
    [while (prevMonday.getDay() !== 1)
       prevMonday.setDate(prevMonday.getDate() - 1);]
    [fuel] bounds the number of rounds; six are enough
    ([prevMonday_loop_fuel] below). *)
Fixpoint prevMonday_loop (fuel : nat) (prevMonday : Date) : Date :=
  match fuel with
  | O => prevMonday
  | S fuel' =>
      if num_neq (getDay prevMonday) (Some 1) then
        prevMonday_loop fuel'
          (setDate prevMonday (num_sub (getDate prevMonday) (Some 1)))
      else prevMonday
  end.

(** The Monday 00:00:00 local time the current week starts at. *)
Definition previousMonday (now : Z) : Date :=
  let currentDate : Date := Some now in
  let prevMonday := prevMonday_loop 6 currentDate in
  setHours prevMonday 0 0 0 0.

(** The number of days from a time value back to the Monday of its
    week, in local time; it is what the loop is measured against. *)
Definition days_since_monday (t : Z) : Z :=
  (WeekDay (LocalTime t) + 6) mod 7.

Definition msg_start_format : string := "Invalid start time format.".
Definition msg_start_weekend : string := "Start time cannot be on weekend.".
Definition msg_start_hours : string :=
  "Start time must be between 08:00 and 18:00.".
Definition msg_start_week : string :=
  "Start time must be between current date and previous Monday.".

(** [validateStartTime(startTime)] at clock reading [now].  The three
    [console.log] lines print the dates and change nothing. *)
Definition validateStartTime (now : Z) (startTime : string) : outcome unit :=
  let startDate := Date_parse (replace " " "T" startTime) in
  if isNaN (getTime startDate) then Throw (mkError msg_start_format)
  else
    (* Validate not weekend *)
    let weekday := getDay startDate in
    if num_eq weekday (Some 0) || num_eq weekday (Some 6) then
      Throw (mkError msg_start_weekend)
    else
      (* Validate hours between 8:00-18:00 *)
      let startHour := getHours startDate in
      if num_lt startHour (Some 8) || num_gt startHour (Some 18) then
        Throw (mkError msg_start_hours)
      else
        let currentDate : Date := Some now in
        let prevMonday := previousMonday now in
        if num_lt startDate prevMonday || num_gt startDate currentDate then
          Throw (mkError msg_start_week)
        else Return tt.

Definition msg_end_format : string := "Invalid end time format.".
Definition msg_end_duration : string :=
  "End time must be at least 1 hour after start time.".
Definition msg_end_same_day : string :=
  "End time must be on the same day as start time.".
Definition msg_end_hours : string :=
  "End time must be between 08:00 and 18:00.".

(** [validateEndTime(startTime, endTime)] *)
Definition validateEndTime (startTime endTime : string) : outcome unit :=
  let startDate := Date_parse startTime in
  let endDate := Date_parse endTime in
  if isNaN (getTime endDate) then Throw (mkError msg_end_format)
  else
    (* Validate at least 1 hour difference *)
    let hourDiff := num_div (num_sub endDate startDate) (1000 * 60 * 60) in
    if quot_lt hourDiff 1 then Throw (mkError msg_end_duration)
    else
      (* Validate same day *)
      if num_neq (getDate startDate) (getDate endDate)
         || num_neq (getMonth startDate) (getMonth endDate)
         || num_neq (getFullYear startDate) (getFullYear endDate)
      then Throw (mkError msg_end_same_day)
      else
        (* Validate hours *)
        let endHour := getHours endDate in
        if num_lt endHour (Some 8) || num_gt endHour (Some 18) then
          Throw (mkError msg_end_hours)
        else Return tt.

(** The test of [validateNoDuplicateTimecard] on one stored start time:
    same day of the month, same month, same year. *)
Definition sameCalendarDay (existingDate startDate : Date) : bool :=
  num_eq (getDate existingDate) (getDate startDate)
  && num_eq (getMonth existingDate) (getMonth startDate)
  && num_eq (getFullYear existingDate) (getFullYear startDate).

End Dates.

(** A reader of the date-time strings the API receives,
    [YYYY-MM-DD HH:mm:ss] or with [T] for the space, in local time: one
    behaviour [new Date(string)] may have, used to run the validators on
    concrete inputs.  Any other string is unreadable to it. *)
Definition parseDateTime (LocalTZA : Z) (s : string) : number :=
  match list_ascii_of_string s with
  | [y1; y2; y3; y4; h1; m1; m2; h2; d1; d2; sep;
     H1; H2; c1; M1; M2; c2; S1; S2] =>
      if Ascii.eqb h1 "-" && Ascii.eqb h2 "-"
         && (Ascii.eqb sep "T" || Ascii.eqb sep " ")
         && Ascii.eqb c1 ":" && Ascii.eqb c2 ":" then
        match digits [y1; y2; y3; y4], digits [m1; m2], digits [d1; d2],
              digits [H1; H2], digits [M1; M2], digits [S1; S2] with
        | Some y, Some m, Some d, Some hh, Some mm, Some ss =>
            if (1 <=? m) && (m <=? 12) && (1 <=? d)
               && (d <=? daysInMonth y (m - 1))
               && (hh <=? 23) && (mm <=? 59) && (ss <=? 59)
            then Some (MakeDate (MakeDay y (m - 1) d) (MakeTime hh mm ss 0)
                       - LocalTZA)
            else None
        | _, _, _, _, _, _ => None
        end
      else None
  | _ => None
  end.

(** ** Records of the data layer *)

(** Modelled from the spec: the record handles of the data layer (the
    classes [Department], [Employee] and [Timecard] are not part of
    [BusinessLayer.js]); a handle has field getters and, for a department,
    setters that change the handle in memory only. *)
Record Department : Type := mkDepartment {
  getCompany : value;
  getId : value;
  getDeptName : value;
  getDeptNo : value;
  getLocation : value
}.

Definition setDeptName (d : Department) (v : value) : Department :=
  mkDepartment (getCompany d) (getId d) v (getDeptNo d) (getLocation d).
Definition setDeptNo (d : Department) (v : value) : Department :=
  mkDepartment (getCompany d) (getId d) (getDeptName d) v (getLocation d).
Definition setLocation (d : Department) (v : value) : Department :=
  mkDepartment (getCompany d) (getId d) (getDeptName d) (getDeptNo d) v.

Record Employee : Type := mkEmployee {
  getEmpId : value;
  getEmpNo : value;
  getMngId : value
}.

Record Timecard : Type := mkTimecard {
  getTimecardId : value;
  getStartTime : string;
  getEndTime : string
}.

(** The argument of the department update: a patch whose fields may be
    missing ([VUndefined]). *)
Record DeptData : Type := mkDeptData {
  dept_id : value;
  company : value;
  dept_no : value;
  dept_name : value;
  location : value
}.

(** What a caller passes for [deptData]: an object with these fields, or
    a value that is no object (a request without a body gives
    undefined). *)
Inductive Argument : Type :=
| Patch (deptData : DeptData)
| NotObject (v : value).
Coercion Patch : DeptData >-> Argument.

(** The fields read off the argument, the first of them, [dept_id], at
    line 12 outside the [try] block: the read of a property of undefined
    or null throws, and a primitive has none of these properties. *)
Definition read_fields (arg : Argument) : outcome DeptData :=
  match arg with
  | Patch deptData => Return deptData
  | NotObject VUndefined => Throw (TypeError_read VUndefined "dept_id")
  | NotObject VNull => Throw (TypeError_read VNull "dept_id")
  | NotObject _ =>
      Return (mkDeptData VUndefined VUndefined VUndefined VUndefined
                VUndefined)
  end.

(** What [validateDepartmentUpdate] resolves to; [existingDept] is [None]
    on the results built without that key. *)
Record ValidationResult : Type := mkResult {
  valid : bool;
  errors : list string;
  existingDept : option Department
}.

(** ** The data-access port

    Every operation of the port reads and changes the state [S] of the
    data layer and either returns or throws.  [None] is the absent record
    of a lookup. *)
Module DataLayer.

Record t (S : Type) : Type := Build {
  getDepartment : value -> value -> S -> outcome (option Department) * S;
  getAllDepartment : value -> S -> outcome (list Department) * S;
  updateDepartment : Department -> S -> outcome Department * S;
  getEmployee : value -> S -> outcome (option Employee) * S;
  getAllTimecard : value -> S -> outcome (list Timecard) * S
}.
Arguments Build {S}.
Arguments getDepartment {S}.
Arguments getAllDepartment {S}.
Arguments updateDepartment {S}.
Arguments getEmployee {S}.
Arguments getAllTimecard {S}.

(** The calls a run makes on the port, in order. *)
Inductive call : Type :=
| GetDepartment (company dept_id : value)
| GetAllDepartment (company : value)
| UpdateDepartment (d : Department)
| GetEmployee (id : value)
| GetAllTimecard (emp_id : value).

Definition is_GetAllDepartment (c : call) : bool :=
  match c with GetAllDepartment _ => true | _ => false end.

End DataLayer.

(** ** Asynchronous computations

    An async function is run from a world, the state of the data layer
    and the trace of the port calls made so far, to an outcome and the
    world it leaves.  The port is assumed to settle every call. *)

Record world (S : Type) : Type := mkWorld {
  store : S;
  trace : list DataLayer.call
}.
Arguments mkWorld {S}.
Arguments store {S}.
Arguments trace {S}.

Definition async (S A : Type) : Type := world S -> outcome A * world S.

Definition ret {S A : Type} (a : A) : async S A := fun w => (Return a, w).

Definition throw {S A : Type} (e : thrown) : async S A :=
  fun w => (Throw e, w).

Definition bind {S A B : Type} (m : async S A) (k : A -> async S B)
  : async S B :=
  fun w =>
    match m w with
    | (Return a, w') => k a w'
    | (Throw e, w') => (Throw e, w')
    end.

(** [try { m } catch (error) { h error }] *)
Definition try_catch {S A : Type} (m : async S A) (h : thrown -> async S A)
  : async S A :=
  fun w =>
    match m w with
    | (Return a, w') => (Return a, w')
    | (Throw e, w') => h e w'
    end.

(** [await] of a port operation: the call is appended to the trace and
    run on the store. *)
Definition await {S A : Type} (c : DataLayer.call)
  (op : S -> outcome A * S) : async S A :=
  fun w =>
    let (r, s') := op (store w) in
    (r, mkWorld s' (trace w ++ [c])).

(** A synchronous check used from an async function. *)
Definition lift {S A : Type} (o : outcome A) : async S A := fun w => (o, w).

Declare Scope async_scope.
Delimit Scope async_scope with async.
Notation "x <- m ;; k" := (bind m (fun x => k))
  (at level 100, m at next level, right associativity) : async_scope.
Local Open Scope async_scope.

(** ** The business layer *)

Section BusinessLayer.

Variable S : Type.
Variable dataLayer : DataLayer.t S.
Variable LocalTZA : Z.
Variable Date_parse : string -> number.

Definition msg_required : string :=
  "Department ID and company name are required".
Definition msg_not_found : string := "Department not found".
Definition msg_unique : string :=
  "Department number must be unique across all companies".

(** [validateDepartmentUpdate(deptData)].

    The first line of the function reads [deptData.dept_id] outside the
    [try] block: on undefined or null this read throws and the function
    raises; on any other argument all the reads of fields succeed, and
    the fields are taken here at once.

    [errors] is the array the source pushes to.  [errors1] is its
    content when the [try] block is entered; the block pushes again only
    after its last port call, so this is also what the [catch] clause
    finds in the array.  The [catch] clause reads [error.message], which
    throws in its turn when the lookup rejected with undefined or
    null. *)
Definition validateDepartmentUpdate (arg : Argument)
  : async S ValidationResult :=
  deptData <- lift (read_fields arg) ;;
  let errors0 : list string := [] in
  (* Validate required fields *)
  let errors1 :=
    if negb (truthy (dept_id deptData)) || negb (truthy (company deptData))
    then push errors0 msg_required
    else errors0 in
  try_catch
    ((* Check if department exists *)
     found <- await
       (DataLayer.GetDepartment (company deptData) (dept_id deptData))
       (DataLayer.getDepartment dataLayer (company deptData)
          (dept_id deptData)) ;;
     match found with
     | None =>
         ret (mkResult false (push errors1 msg_not_found) None)
     | Some existingDept =>
         (* Validate dept_no uniqueness (only if it's being updated) *)
         errors2 <-
           (if truthy (dept_no deptData)
               && strict_neq (dept_no deptData) (getDeptNo existingDept)
            then
              allDepartments <- await
                (DataLayer.GetAllDepartment (company deptData))
                (DataLayer.getAllDepartment dataLayer (company deptData)) ;;
              let isDeptNoUnique :=
                negb (existsb
                  (fun dept =>
                     strict_eq (getDeptNo dept) (dept_no deptData)
                     && strict_neq (getId dept) (dept_id deptData))
                  allDepartments) in
              ret (if negb isDeptNoUnique then push errors1 msg_unique
                   else errors1)
            else ret errors1) ;;
         ret (mkResult (Nat.eqb (length errors2) 0) errors2
                (Some existingDept))
     end)
    (fun error =>
       text <- lift (read_message error) ;;
       ret (mkResult false (push errors1 ("Validation error: " ++ text))
              None)).

(** The content of [errors] when [validateDepartmentUpdate] enters its
    [try] block: the outcome of the required-fields check. *)
Definition errors_on_entry (deptData : DeptData) : list string :=
  if negb (truthy (dept_id deptData)) || negb (truthy (company deptData))
  then [msg_required]
  else [].

(** Whether the patch asks for the uniqueness check against the stored
    department [d]: the test of line 25. *)
Definition dept_no_changes (deptData : DeptData) (d : Department) : bool :=
  truthy (dept_no deptData)
  && strict_neq (dept_no deptData) (getDeptNo d).

(** The outcome of the [catch] clause for the fault [e], with [errs] in
    the array of errors. *)
Definition caught (errs : list string) (e : thrown)
  : outcome ValidationResult :=
  match read_message e with
  | Return text =>
      Return (mkResult false (push errs ("Validation error: " ++ text)) None)
  | Throw t => Throw t
  end.

(** A lookup of [validateDepartmentUpdate] run from world [w] throws
    [e]: the lookup of the department does, or it finds the department,
    the uniqueness check is due and the listing of the departments
    throws. *)
Inductive lookup_fault (deptData : DeptData) (w : world S) (e : thrown)
  : Prop :=
| fault_getDepartment s1 :
    DataLayer.getDepartment dataLayer (company deptData)
      (dept_id deptData) (store w) = (Throw e, s1) ->
    lookup_fault deptData w e
| fault_getAllDepartment d s1 s2 :
    DataLayer.getDepartment dataLayer (company deptData)
      (dept_id deptData) (store w) = (Return (Some d), s1) ->
    dept_no_changes deptData d = true ->
    DataLayer.getAllDepartment dataLayer (company deptData) s1
      = (Throw e, s2) ->
    lookup_fault deptData w e.

(** [updateDepartment(deptData)].  The setters change the handle the
    lookup returned, and that handle is what the update operation gets:
    here, the record with the fields replaced.  A valid result always
    carries the department ([valid_has_existingDept] below); the last
    branch stands for the use of a missing handle. *)
Definition updateDepartment (arg : Argument) : async S Department :=
  (* Perform validation *)
  validationResult <- validateDepartmentUpdate arg ;;
  if negb (valid validationResult) then
    throw (mkError ("Validation failed: "
                    ++ join ", " (errors validationResult)))
  else
    match existingDept validationResult with
    | Some existingDept0 =>
        deptData <- lift (read_fields arg) ;;
        (* Update only the fields that are provided *)
        let existingDept1 :=
          if truthy (dept_name deptData)
          then setDeptName existingDept0 (dept_name deptData)
          else existingDept0 in
        let existingDept2 :=
          if truthy (dept_no deptData)
          then setDeptNo existingDept1 (dept_no deptData)
          else existingDept1 in
        let existingDept3 :=
          if truthy (location deptData)
          then setLocation existingDept2 (location deptData)
          else existingDept2 in
        (* Perform update *)
        await (DataLayer.UpdateDepartment existingDept3)
          (DataLayer.updateDepartment dataLayer existingDept3)
    | None =>
        throw (mkError "Cannot read properties of undefined")
    end.

(** [validateDepartment(company, deptId)] *)
Definition validateDepartment (company deptId : value) : async S unit :=
  department <- await (DataLayer.GetDepartment company deptId)
    (DataLayer.getDepartment dataLayer company deptId) ;;
  match department with
  | None =>
      throw (mkError ("Invalid department ID: " ++ ToString deptId
                      ++ " does not exist in company '" ++ ToString company
                      ++ "'."))
  | Some _ => ret tt
  end.

Definition msg_manager (mngId : value) : string :=
  "Invalid manager ID: " ++ ToString mngId ++ ".".

(** [validateManager(mngId)] *)
Definition validateManager (mngId : value) : async S unit :=
  if strict_eq mngId (VNum 0) then ret tt (* No manager required *)
  else
    manager <- await (DataLayer.GetEmployee mngId)
      (DataLayer.getEmployee dataLayer mngId) ;;
    match manager with
    | None => throw (mkError (msg_manager mngId))
    | Some _ => ret tt
    end.

(** [validateEmployeeNumber(empNo)] *)
Definition validateEmployeeNumber (empNo : value) : async S unit :=
  existingEmployee <- await (DataLayer.GetEmployee empNo)
    (DataLayer.getEmployee dataLayer empNo) ;;
  match existingEmployee with
  | Some _ =>
      throw (mkError ("Employee number '" ++ ToString empNo
                      ++ "' must be unique."))
  | None => ret tt
  end.

(** [validateNoDuplicateTimecard(emp_id, startTime)] *)
Definition validateNoDuplicateTimecard (emp_id : value) (startTime : string)
  : async S unit :=
  let startDate := Date_parse startTime in
  timecards <- await (DataLayer.GetAllTimecard emp_id)
    (DataLayer.getAllTimecard dataLayer emp_id) ;;
  let hasExisting :=
    existsb
      (fun timecard =>
         let existingDate := Date_parse (getStartTime timecard) in
         sameCalendarDay LocalTZA existingDate startDate)
      timecards in
  if hasExisting then
    throw (mkError "Employee already has a timecard for this date.")
  else ret tt.

(** [validateEmployee(emp_id)] *)
Definition validateEmployee (emp_id : value) : async S unit :=
  employee <- await (DataLayer.GetEmployee emp_id)
    (DataLayer.getEmployee dataLayer emp_id) ;;
  match employee with
  | None => throw (mkError "Employee ID does not exist.")
  | Some _ => ret tt
  end.

End BusinessLayer.

Arguments validateDepartmentUpdate {S}.
Arguments lookup_fault {S}.
Arguments updateDepartment {S}.
Arguments validateDepartment {S}.
Arguments validateManager {S}.
Arguments validateEmployeeNumber {S}.
Arguments validateNoDuplicateTimecard {S}.
Arguments validateEmployee {S}.

(** ** Data layers to run the business layer on *)

(** A data layer kept in memory. *)
Record Tables : Type := mkTables {
  departments : list Department;
  employees : list Employee;
  timecards : list (value * Timecard)
}.

Definition memoryLayer : DataLayer.t Tables :=
  DataLayer.Build
    (fun company deptId s =>
       (Return (find (fun d => strict_eq (getCompany d) company
                               && strict_eq (getId d) deptId)
                     (departments s)), s))
    (fun company s =>
       (Return (filter (fun d => strict_eq (getCompany d) company)
                       (departments s)), s))
    (fun d s =>
       (Return d,
        mkTables
          (map (fun d' => if strict_eq (getId d') (getId d) then d else d')
               (departments s))
          (employees s) (timecards s)))
    (fun id s =>
       (Return (find (fun e => strict_eq (getEmpId e) id) (employees s)), s))
    (fun emp_id s =>
       (Return (map snd (filter (fun p => strict_eq (fst p) emp_id)
                                (timecards s))), s)).

(** The same data layer when the connection is lost after the first
    lookup of a department: listing the departments throws. *)
Definition lossyLayer : DataLayer.t Tables :=
  DataLayer.Build
    (DataLayer.getDepartment memoryLayer)
    (fun _ s => (Throw (mkError "connection lost"), s))
    (DataLayer.updateDepartment memoryLayer)
    (DataLayer.getEmployee memoryLayer)
    (DataLayer.getAllTimecard memoryLayer).

(** A data layer that is down: every call throws. *)
Definition downLayer : DataLayer.t Tables :=
  DataLayer.Build
    (fun _ _ s => (Throw (mkError "connection refused"), s))
    (fun _ s => (Throw (mkError "connection refused"), s))
    (fun _ s => (Throw (mkError "connection refused"), s))
    (fun _ s => (Throw (mkError "connection refused"), s))
    (fun _ s => (Throw (mkError "connection refused"), s)).

(** A data layer whose lookup of a department rejects without a reason,
    as [Promise.reject()] does: the value thrown is undefined. *)
Definition rejectingLayer : DataLayer.t Tables :=
  DataLayer.Build
    (fun _ _ s => (Throw (ThrownValue VUndefined), s))
    (DataLayer.getAllDepartment memoryLayer)
    (DataLayer.updateDepartment memoryLayer)
    (DataLayer.getEmployee memoryLayer)
    (DataLayer.getAllTimecard memoryLayer).

Definition sales : Department :=
  mkDepartment (VStr "acme") (VNum 1) (VStr "Sales") (VStr "D10")
    (VStr "Boston").
Definition research : Department :=
  mkDepartment (VStr "acme") (VNum 2) (VStr "Research") (VStr "D20")
    (VStr "Austin").
(** A second record with the number of [sales]; the data layer does not
    forbid it. *)
Definition outlet : Department :=
  mkDepartment (VStr "acme") (VNum 3) (VStr "Outlet") (VStr "D10")
    (VStr "Reno").

Definition acme : Tables :=
  mkTables [sales; research; outlet]
    [mkEmployee (VNum 7) (VStr "E7") (VNum 0)] [].

Definition start_world (s : Tables) : world Tables := mkWorld s [].

(** Patches for the runs below. *)

(** No company: the required-fields check fails and the lookup finds
    nothing. *)
Definition patch_without_company : DeptData :=
  mkDeptData (VNum 99) VUndefined VUndefined VUndefined VUndefined.
(** An unknown department of a known company. *)
Definition patch_unknown : DeptData :=
  mkDeptData (VNum 99) (VStr "acme") VUndefined VUndefined VUndefined.
(** A new location for [sales] and nothing else. *)
Definition patch_location : DeptData :=
  mkDeptData (VNum 1) (VStr "acme") VUndefined VUndefined (VStr "Denver").
(** The number [sales] already has, which [outlet] shares. *)
Definition patch_same_number : DeptData :=
  mkDeptData (VNum 1) (VStr "acme") (VStr "D10") VUndefined VUndefined.
(** A new number for [sales]. *)
Definition patch_new_number : DeptData :=
  mkDeptData (VNum 1) (VStr "acme") (VStr "D99") VUndefined VUndefined.

(** For [research], the number [sales] and [outlet] have: refused, and
    the result still carries the department. *)
Definition patch_taken_number : DeptData :=
  mkDeptData (VNum 2) (VStr "acme") (VStr "D10") VUndefined VUndefined.
Definition result_taken_number : ValidationResult :=
  mkResult false ["Department number must be unique across all companies"]
    (Some research).

(** Wednesday 2024-01-03 at 18:30:00 UTC, as a clock reading. *)
Definition wednesday_18_30 : Z := 1704306600000.

(** ** Notions the further properties are stated with *)

Definition is_UpdateDepartment (c : DataLayer.call) : bool :=
  match c with DataLayer.UpdateDepartment _ => true | _ => false end.

(** The test the uniqueness check makes on one listed department: it has
    the number of the patch and another id (lines 29 and 30). *)
Definition clashes (deptData : DeptData) (dept : Department) : bool :=
  strict_eq (getDeptNo dept) (dept_no deptData)
  && strict_neq (getId dept) (dept_id deptData).

(** The value a patched field ends with: the one of the patch when it is
    truthy, the stored one otherwise. *)
Definition patched (supplied stored : value) : value :=
  if truthy supplied then supplied else stored.

(** The stored department [d] with the truthy fields of the patch. *)
Definition apply_patch (deptData : DeptData) (d : Department) : Department :=
  mkDepartment (getCompany d) (getId d)
    (patched (dept_name deptData) (getDeptName d))
    (patched (dept_no deptData) (getDeptNo d))
    (patched (location deptData) (getLocation d)).

Definition msg_hire_invalid : string :=
  "Hire date must be a valid date and cannot be in the future.".
Definition msg_hire_weekend : string :=
  "Hire date must be a Monday through Friday. Weekends are not allowed.".
Definition msg_duplicate_timecard : string :=
  "Employee already has a timecard for this date.".
Definition msg_employee_missing : string := "Employee ID does not exist.".

(** No character of the string is a space. *)
Fixpoint no_space (s : string) : bool :=
  match s with
  | EmptyString => true
  | String a s' => negb (Ascii.eqb a " ") && no_space s'
  end.

(** A timecard of employee 7 that starts on Wednesday 2024-01-03. *)
Definition card_wednesday : Timecard :=
  mkTimecard (VNum 1) "2024-01-03 09:00:00" "2024-01-03 17:00:00".

Definition acme_with_card : Tables :=
  mkTables (departments acme) (employees acme) [(VNum 7, card_wednesday)].

(** A name and a number for [research], the number free. *)
Definition patch_rename : DeptData :=
  mkDeptData (VNum 2) (VStr "acme") (VStr "D30") (VStr "Labs") VUndefined.

(** Monday 2024-01-01 at 10:00:00 UTC, as a clock reading. *)
Definition monday_10_00 : Z := 1704103200000.

(** * Properties *)

(** ** The calendar *)

Lemma year_of_era_range doe :
  0 <= doe < 146097 -> 0 <= year_of_era doe <= 399.
Proof.
  intros H. unfold year_of_era.
  Z.to_euclidean_division_equations; lia.
Qed.

Lemma day_of_year_range doe :
  0 <= doe < 146097 -> 0 <= day_of_year doe <= 365.
Proof.
  intros H. unfold day_of_year, year_of_era.
  Z.to_euclidean_division_equations; lia.
Qed.

Lemma day_of_era_range z :
  0 <= z + 719468 - (z + 719468) / 146097 * 146097 < 146097.
Proof. Z.to_euclidean_division_equations; lia. Qed.

Lemma civil_month_range z :
  let '(_, m, _) := civil_from_days z in 1 <= m <= 12.
Proof.
  unfold civil_from_days.
  pose proof (day_of_year_range _ (day_of_era_range z)) as Hdoy.
  set (doy := day_of_year _) in *.
  destruct (Z.ltb_spec ((5 * doy + 2) / 153) 10);
    Z.to_euclidean_division_equations; lia.
Qed.

(** The civil date of a day number is a date of that day number. *)
Lemma days_from_civil_from_days z :
  let '(y, m, d) := civil_from_days z in days_from_civil y m d = z.
Proof.
  unfold civil_from_days.
  set (era := (z + 719468) / 146097).
  pose proof (day_of_era_range z) as Hdoe. fold era in Hdoe.
  set (doe := z + 719468 - era * 146097) in *.
  pose proof (year_of_era_range doe Hdoe) as Hyoe.
  pose proof (day_of_year_range doe Hdoe) as Hdoy.
  unfold day_of_year in *.
  set (yoe := year_of_era doe) in *.
  set (doy := doe - (365 * yoe + yoe / 4 - yoe / 100)) in *.
  set (mp := (5 * doy + 2) / 153).
  assert (Hmp : 0 <= mp <= 11)
    by (unfold mp; Z.to_euclidean_division_equations; lia).
  set (m := if mp <? 10 then mp + 3 else mp - 9).
  unfold days_from_civil.
  set (y := yoe + era * 400).
  replace (if m <=? 2 then (if m <=? 2 then y + 1 else y) - 1
           else (if m <=? 2 then y + 1 else y))
    with y by (destruct (m <=? 2); lia).
  assert (Hera : y / 400 = era).
  { unfold y. rewrite Z.div_add by lia. rewrite Z.div_small by lia. lia. }
  rewrite Hera.
  assert (Hm : (if 2 <? m then m - 3 else m + 9) = mp).
  { unfold m. destruct (Z.ltb_spec mp 10).
    - destruct (Z.ltb_spec 2 (mp + 3)); lia.
    - destruct (Z.ltb_spec 2 (mp - 9)); lia. }
  rewrite Hm.
  replace (y - era * 400) with yoe by (unfold y; lia).
  unfold doy, doe. lia.
Qed.

Lemma days_from_civil_day y m d :
  days_from_civil y m d = days_from_civil y m 1 + d - 1.
Proof. unfold days_from_civil. lia. Qed.

(** [MakeDay] on the fields of a time value gives its day back. *)
Lemma MakeDay_of_fields t :
  MakeDay (YearFromTime t) (MonthFromTime t) (DateFromTime t) = Day t.
Proof.
  unfold MakeDay, YearFromTime, MonthFromTime, DateFromTime.
  pose proof (days_from_civil_from_days (Day t)) as Hrt.
  pose proof (civil_month_range (Day t)) as Hm.
  destruct (civil_from_days (Day t)) as [[y m] d].
  rewrite Z.div_small by lia. rewrite Z.mod_small by lia.
  rewrite Z.add_0_r. replace (m - 1 + 1) with m by lia.
  rewrite <- Hrt. rewrite (days_from_civil_day y m d). lia.
Qed.

Lemma MakeDay_date y m d k : MakeDay y m (d + k) = MakeDay y m d + k.
Proof. unfold MakeDay. lia. Qed.

Lemma Day_previous t : Day (t - msPerDay) = Day t - 1.
Proof.
  unfold Day, msPerDay.
  replace (t - 86400000) with (t + (-1) * 86400000) by lia.
  rewrite Z.div_add by lia. lia.
Qed.

Lemma WeekDay_previous t : WeekDay (t - msPerDay) = (WeekDay t + 6) mod 7.
Proof.
  unfold WeekDay. rewrite Day_previous.
  Z.to_euclidean_division_equations; lia.
Qed.

Lemma WeekDay_range t : 0 <= WeekDay t <= 6.
Proof. unfold WeekDay. Z.to_euclidean_division_equations; lia. Qed.

Lemma HourFromTime_range t : 0 <= HourFromTime t <= 23.
Proof. unfold HourFromTime. Z.to_euclidean_division_equations; lia. Qed.

(** The weekday of a day number, whatever the time of day. *)
Lemma WeekDay_MakeDate day time :
  0 <= time < msPerDay -> WeekDay (MakeDate day time) = (day + 4) mod 7.
Proof.
  intros H. unfold WeekDay, Day, MakeDate, msPerDay in *.
  replace (day * 86400000 + time) with (time + day * 86400000) by lia.
  rewrite Z.div_add by lia. rewrite Z.div_small by lia. reflexivity.
Qed.

(** ** Dates *)

Section DateProperties.

Variable LocalTZA : Z.
Variable Date_parse : string -> number.

Lemma MakeDate_fields t : MakeDate (Day t) (TimeWithinDay t) = t.
Proof.
  unfold MakeDate, Day, TimeWithinDay, msPerDay.
  Z.to_euclidean_division_equations; lia.
Qed.

(** One round of the loop moves the date back by a day. *)
Lemma setDate_previous t :
  setDate LocalTZA (Some t)
    (num_sub (getDate LocalTZA (Some t)) (Some 1))
  = Some (t - msPerDay).
Proof.
  unfold setDate, getDate, num_sub, option_map. f_equal.
  replace (DateFromTime (LocalTime LocalTZA t) - 1)
    with (DateFromTime (LocalTime LocalTZA t) + (-1)) by lia.
  rewrite MakeDay_date, MakeDay_of_fields.
  pose proof (MakeDate_fields (LocalTime LocalTZA t)) as H.
  unfold UTC, MakeDate, LocalTime in *. lia.
Qed.

Lemma days_since_monday_zero t :
  days_since_monday LocalTZA t = 0 <-> WeekDay (LocalTime LocalTZA t) = 1.
Proof.
  unfold days_since_monday.
  pose proof (WeekDay_range (LocalTime LocalTZA t)).
  Z.to_euclidean_division_equations; lia.
Qed.

Lemma days_since_monday_previous t :
  days_since_monday LocalTZA t <> 0 ->
  days_since_monday LocalTZA (t - msPerDay) = days_since_monday LocalTZA t - 1.
Proof.
  unfold days_since_monday, LocalTime.
  replace (t - msPerDay + LocalTZA) with (t + LocalTZA - msPerDay) by lia.
  rewrite WeekDay_previous.
  pose proof (WeekDay_range (t + LocalTZA)).
  Z.to_euclidean_division_equations; lia.
Qed.

Lemma prevMonday_loop_spec fuel : forall t,
  days_since_monday LocalTZA t <= Z.of_nat fuel ->
  prevMonday_loop LocalTZA fuel (Some t)
  = Some (t - days_since_monday LocalTZA t * msPerDay).
Proof.
  induction fuel as [|fuel IH]; intros t Hk.
  - assert (days_since_monday LocalTZA t = 0).
    { unfold days_since_monday in *.
      Z.to_euclidean_division_equations; lia. }
    simpl. f_equal. lia.
  - cbn [prevMonday_loop].
    unfold num_neq, num_eq. cbn [getDay option_map].
    destruct (Z.eqb_spec (WeekDay (LocalTime LocalTZA t)) 1) as [E|E].
    + apply days_since_monday_zero in E. cbn [negb]. f_equal. lia.
    + cbn [negb]. rewrite setDate_previous.
      assert (days_since_monday LocalTZA t <> 0)
        by (rewrite days_since_monday_zero; exact E).
      rewrite IH by (rewrite days_since_monday_previous; lia).
      rewrite days_since_monday_previous by assumption. f_equal. lia.
Qed.

Lemma days_since_monday_range t : 0 <= days_since_monday LocalTZA t <= 6.
Proof.
  unfold days_since_monday. Z.to_euclidean_division_equations; lia.
Qed.

(** Six rounds are enough: more fuel changes nothing, and the loop ends
    on a Monday. *)
Lemma prevMonday_loop_fuel fuel t :
  (6 <= fuel)%nat ->
  prevMonday_loop LocalTZA fuel (Some t)
  = prevMonday_loop LocalTZA 6 (Some t).
Proof.
  intros H. pose proof (days_since_monday_range t).
  rewrite !prevMonday_loop_spec by lia. reflexivity.
Qed.

Lemma prevMonday_loop_monday t :
  getDay LocalTZA (prevMonday_loop LocalTZA 6 (Some t)) = Some 1.
Proof.
  pose proof (days_since_monday_range t) as Hr.
  rewrite prevMonday_loop_spec by lia.
  cbn [getDay option_map]. f_equal.
  apply days_since_monday_zero.
  remember (days_since_monday LocalTZA t) as k eqn:Ek.
  assert (Hk : exists n : nat, k = Z.of_nat n /\ (n <= 6)%nat).
  { exists (Z.to_nat k). lia. }
  destruct Hk as [n [-> Hn]]. clear Hr.
  revert t Ek. induction n as [|n IH]; intros t Ek.
  - simpl. rewrite Z.sub_0_r. symmetry. exact Ek.
  - replace (t - Z.of_nat (S n) * msPerDay)
      with (t - msPerDay - Z.of_nat n * msPerDay) by lia.
    apply IH; [lia|].
    rewrite days_since_monday_previous; lia.
Qed.

(** The start of the week: 00:00:00 local time of the Monday found. *)
Lemma previousMonday_spec now :
  previousMonday LocalTZA now
  = Some (UTC LocalTZA
            (MakeDate (Day (LocalTime LocalTZA now)
                       - days_since_monday LocalTZA now)
                      0)).
Proof.
  unfold previousMonday. pose proof (days_since_monday_range now).
  rewrite prevMonday_loop_spec by lia.
  unfold setHours. f_equal. f_equal. unfold MakeTime. f_equal.
  unfold LocalTime, Day, msPerDay.
  replace (now - days_since_monday LocalTZA now * 86400000 + LocalTZA)
    with (now + LocalTZA + (- days_since_monday LocalTZA now) * 86400000)
    by lia.
  rewrite Z.div_add by lia. lia.
Qed.

Lemma previousMonday_before_now now :
  num_lt (Some now) (previousMonday LocalTZA now) = false.
Proof.
  rewrite previousMonday_spec. unfold num_lt.
  apply Z.ltb_ge. pose proof (days_since_monday_range now).
  pose proof (MakeDate_fields (LocalTime LocalTZA now)) as H1.
  unfold UTC, MakeDate, LocalTime, TimeWithinDay, msPerDay in *.
  Z.to_euclidean_division_equations; lia.
Qed.

End DateProperties.

(** ** The timecard validators *)

(** The duration in hours is below 1 when the difference in milliseconds
    is below 3600000. *)
Lemma hourDiff_lt_1 d :
  quot_lt (num_div (Some d) (1000 * 60 * 60)) 1 = (d <? 3600000).
Proof.
  unfold quot_lt, num_div, Qle_bool, Qdiv, Qmult, Qinv, inject_Z.
  simpl.
  destruct (Z.leb_spec 3600000 (d * 1 * 1));
    destruct (Z.ltb_spec d 3600000); cbn [negb]; try reflexivity; lia.
Qed.

Section StartTime.

Variable LocalTZA : Z.
Variable Date_parse : string -> number.

(** What is left of [validateStartTime] once the string is read as a
    weekday: the hour window, then the week. *)
Lemma validateStartTime_weekday now startTime t :
  Date_parse (replace " " "T" startTime) = Some t ->
  1 <= WeekDay (LocalTime LocalTZA t) <= 5 ->
  validateStartTime LocalTZA Date_parse now startTime =
    if (HourFromTime (LocalTime LocalTZA t) <? 8)
       || (18 <? HourFromTime (LocalTime LocalTZA t))
    then Throw (mkError msg_start_hours)
    else if num_lt (Some t) (previousMonday LocalTZA now) || (now <? t)
         then Throw (mkError msg_start_week)
         else Return tt.
Proof.
  intros Hp Hw. unfold validateStartTime.
  rewrite Hp.
  cbn [getTime isNaN getDay getHours option_map num_eq num_lt num_gt].
  destruct (Z.eqb_spec (WeekDay (LocalTime LocalTZA t)) 0); [lia|].
  destruct (Z.eqb_spec (WeekDay (LocalTime LocalTZA t)) 6); [lia|].
  reflexivity.
Qed.

(** The hour window is a test on the hour alone: a weekday start time
    is refused for its hour exactly when the hour is below 8 or above
    18. *)
Lemma validateStartTime_hour_window now startTime t :
  Date_parse (replace " " "T" startTime) = Some t ->
  1 <= WeekDay (LocalTime LocalTZA t) <= 5 ->
  validateStartTime LocalTZA Date_parse now startTime
    = Throw (mkError msg_start_hours)
  <-> HourFromTime (LocalTime LocalTZA t) < 8
      \/ 18 < HourFromTime (LocalTime LocalTZA t).
Proof.
  intros Hp Hw. rewrite (validateStartTime_weekday now _ t Hp Hw).
  destruct (Z.ltb_spec (HourFromTime (LocalTime LocalTZA t)) 8);
    destruct (Z.ltb_spec 18 (HourFromTime (LocalTime LocalTZA t)));
    cbn [orb]; try (split; [intros _; lia | reflexivity]).
  split; [|lia].
  destruct (_ || _); discriminate.
Qed.

(** Within hour 18, every minute is accepted: a weekday start time of
    the current week at 18:mm passes all the checks. *)
Lemma validateStartTime_hour_18 now startTime t :
  Date_parse (replace " " "T" startTime) = Some t ->
  1 <= WeekDay (LocalTime LocalTZA t) <= 5 ->
  HourFromTime (LocalTime LocalTZA t) = 18 ->
  num_lt (Some t) (previousMonday LocalTZA now) = false ->
  t <= now ->
  validateStartTime LocalTZA Date_parse now startTime = Return tt.
Proof.
  intros Hp Hw Hh Hm Hn. rewrite (validateStartTime_weekday now _ t Hp Hw).
  rewrite Hh, Hm. cbn.
  destruct (Z.ltb_spec now t); [lia | reflexivity].
Qed.

End StartTime.

Section EndTime.

Variable LocalTZA : Z.
Variable Date_parse : string -> number.

(** [validateEndTime] when both strings are read. *)
Lemma validateEndTime_parsed startTime endTime s e :
  Date_parse startTime = Some s ->
  Date_parse endTime = Some e ->
  validateEndTime LocalTZA Date_parse startTime endTime =
    if e - s <? 3600000 then Throw (mkError msg_end_duration)
    else if num_neq (getDate LocalTZA (Some s)) (getDate LocalTZA (Some e))
            || num_neq (getMonth LocalTZA (Some s)) (getMonth LocalTZA (Some e))
            || num_neq (getFullYear LocalTZA (Some s))
                       (getFullYear LocalTZA (Some e))
         then Throw (mkError msg_end_same_day)
         else if num_lt (getHours LocalTZA (Some e)) (Some 8)
                 || num_gt (getHours LocalTZA (Some e)) (Some 18)
              then Throw (mkError msg_end_hours)
              else Return tt.
Proof.
  intros Hs He. unfold validateEndTime. rewrite Hs, He.
  cbn [getTime isNaN num_sub]. rewrite hourDiff_lt_1. reflexivity.
Qed.

(** [validateEndTime] when the end time is read and the start time is
    not: the duration test is false and the same-day test fails. *)
Lemma validateEndTime_start_unread startTime endTime e :
  Date_parse startTime = NaN ->
  Date_parse endTime = Some e ->
  validateEndTime LocalTZA Date_parse startTime endTime
  = Throw (mkError msg_end_same_day).
Proof.
  intros Hs He. unfold validateEndTime. rewrite Hs, He. reflexivity.
Qed.

(** C4. The duration check of [validateEndTime] is on the difference
    [e - s] in milliseconds of the two time values: once the end time is
    read, the call fails with the at-least-1-hour message exactly when
    the start time is read too and the difference is below one hour.  So
    exactly 60 minutes pass this check, 59 minutes fail it, and an end
    before the start fails it with that same message. *)
Theorem validateEndTime_duration_check startTime endTime e :
  Date_parse endTime = Some e ->
  (validateEndTime LocalTZA Date_parse startTime endTime
     = Throw (mkError msg_end_duration)
   <-> exists s, Date_parse startTime = Some s /\ e - s < 1000 * 60 * 60)
  /\ (forall s, Date_parse startTime = Some s ->
      (e - s = 60 * msPerMinute ->
       validateEndTime LocalTZA Date_parse startTime endTime
         <> Throw (mkError msg_end_duration))
      /\ (e - s = 59 * msPerMinute ->
          validateEndTime LocalTZA Date_parse startTime endTime
            = Throw (mkError msg_end_duration))
      /\ (e < s ->
          validateEndTime LocalTZA Date_parse startTime endTime
            = Throw (mkError msg_end_duration))).
Proof.
  intros He.
  assert (Hparsed : forall s, Date_parse startTime = Some s ->
            (validateEndTime LocalTZA Date_parse startTime endTime
               = Throw (mkError msg_end_duration)
             <-> e - s < 1000 * 60 * 60)).
  { intros s Hs. rewrite (validateEndTime_parsed _ _ s e Hs He).
    destruct (Z.ltb_spec (e - s) 3600000) as [Hlt|Hge].
    - split; [intros _; lia | reflexivity].
    - split; [|lia].
      repeat match goal with
             | |- context [if ?b then _ else _] => destruct b
             end; discriminate. }
  split.
  - destruct (Date_parse startTime) as [s|] eqn:Hs.
    + rewrite (Hparsed s eq_refl). split.
      * intros Hlt. exists s. split; [reflexivity | exact Hlt].
      * intros [s' [Hs' Hlt]]. injection Hs' as <-. exact Hlt.
    + rewrite (validateEndTime_start_unread _ _ e Hs He). split.
      * discriminate.
      * intros [s' [Hs' _]]. discriminate.
  - intros s Hs. unfold msPerMinute.
    repeat split; intros Hd.
    + rewrite (Hparsed s Hs). lia.
    + apply (Hparsed s Hs). lia.
    + apply (Hparsed s Hs). lia.
Qed.

(** C9. With an end time that is read and a start time that is not,
    [validateEndTime] does not complain about the start time: the
    difference is NaN, which is not below 1, and the call fails on the
    same-day check. *)
Theorem validateEndTime_unparsable_start startTime endTime e :
  Date_parse startTime = NaN ->
  Date_parse endTime = Some e ->
  quot_lt (num_div (num_sub (Date_parse endTime) (Date_parse startTime))
                   (1000 * 60 * 60)) 1 = false
  /\ validateEndTime LocalTZA Date_parse startTime endTime
     = Throw (mkError msg_end_same_day).
Proof.
  intros Hs He. split.
  - rewrite Hs, He. reflexivity.
  - exact (validateEndTime_start_unread _ _ e Hs He).
Qed.

End EndTime.

(** ** The hire date *)

Section HireDate.

Variable LocalTZA : Z.

Lemma parse_YYYY_MM_DD_month s y m d :
  parse_YYYY_MM_DD s = Some (y, m, d) -> 1 <= m <= 12.
Proof.
  unfold parse_YYYY_MM_DD, checkOverflow.
  destruct (fields_YYYY_MM_DD s) as [[[y' m'] d']|]; [|discriminate].
  destruct (Z.ltb_spec (m' - 1) 0); [discriminate|].
  destruct (Z.ltb_spec 11 (m' - 1)); [discriminate|]. cbn [orb].
  destruct (_ || _); [discriminate|].
  intros Heq. injection Heq as <- <- <-. lia.
Qed.

Lemma MakeDay_civil y m d :
  1 <= m <= 12 -> MakeDay y (m - 1) d = days_from_civil y m d.
Proof.
  intros H. unfold MakeDay.
  rewrite Z.div_small by lia. rewrite Z.mod_small by lia.
  rewrite Z.add_0_r. replace (m - 1 + 1) with m by lia.
  rewrite (days_from_civil_day y m d). lia.
Qed.

(** The moment of a civil date: its value is local midnight, its ISO
    weekday is the one of the date. *)
Lemma isoWeekday_Date_of_fields y m d :
  1 <= m <= 12 ->
  isoWeekday LocalTZA (Date_of_fields LocalTZA y (m - 1) d)
  = Some (isoWeekday_of_day (days_from_civil y m d)).
Proof.
  intros H. unfold isoWeekday, Date_of_fields, getDay, option_map, num_or.
  rewrite (MakeDay_civil y m d H).
  unfold LocalTime, UTC.
  replace (MakeDate (days_from_civil y m d) 0 - LocalTZA + LocalTZA)
    with (MakeDate (days_from_civil y m d) 0) by lia.
  rewrite WeekDay_MakeDate by (unfold msPerDay; lia).
  unfold isoWeekday_of_day.
  destruct (Z.eqb_spec ((days_from_civil y m d + 4) mod 7) 0);
    f_equal; Z.to_euclidean_division_equations; lia.
Qed.

(** C7. [validateHireDate] raises exactly when the string fails strict
    parsing against [YYYY-MM-DD] (not of that form, or not a date of the
    calendar), or the parsed date, taken at 00:00 local time, lies after
    the clock reading [now], or its ISO weekday is 6 or 7; on every
    other input it returns. *)
Theorem validateHireDate_raises_iff now hireDate :
  let refused :=
    match parse_YYYY_MM_DD hireDate with
    | None => True
    | Some (y, m, d) =>
        now < days_from_civil y m d * msPerDay - LocalTZA
        \/ 6 <= isoWeekday_of_day (days_from_civil y m d)
    end in
  (raises (validateHireDate LocalTZA now hireDate) <-> refused)
  /\ (validateHireDate LocalTZA now hireDate = Return tt <-> ~ refused).
Proof.
  cbv zeta. unfold validateHireDate, moment_YYYY_MM_DD, raises.
  destruct (parse_YYYY_MM_DD hireDate) as [[[y m] d]|] eqn:Hp.
  - pose proof (parse_YYYY_MM_DD_month _ _ _ _ Hp) as Hm.
    rewrite (isoWeekday_Date_of_fields y m d Hm).
    unfold Date_of_fields. rewrite (MakeDay_civil y m d Hm).
    cbn [isValid isNaN negb orb isAfter num_gt num_lt num_ge].
    unfold UTC, MakeDate. rewrite Z.add_0_r.
    destruct (Z.ltb_spec now (days_from_civil y m d * msPerDay - LocalTZA));
      [|destruct (Z.leb_spec 6 (isoWeekday_of_day (days_from_civil y m d)))].
    + split; split.
      * intros _. left. assumption.
      * intros _. eexists. reflexivity.
      * discriminate.
      * intros Hn. exfalso. apply Hn. left. assumption.
    + split; split.
      * intros _. right. assumption.
      * intros _. eexists. reflexivity.
      * discriminate.
      * intros Hn. exfalso. apply Hn. right. assumption.
    + split; split.
      * intros [e He]. discriminate.
      * intros [Hl|Hr]; lia.
      * intros _ [Hl|Hr]; lia.
      * reflexivity.
  - cbn. split; split.
    + trivial.
    + intros _. eexists. reflexivity.
    + discriminate.
    + intros Hn. exfalso. apply Hn. exact I.
Qed.

End HireDate.

(** ** The department update *)

Lemma strict_neq_same v : truthy v && strict_neq v v = false.
Proof.
  unfold strict_neq.
  destruct v as [| |b|n| |s]; cbn [truthy strict_eq andb negb];
    try reflexivity.
  - rewrite Bool.eqb_reflx. apply andb_false_r.
  - rewrite Z.eqb_refl. apply andb_false_r.
  - rewrite String.eqb_refl. apply andb_false_r.
Qed.

Lemma push_not_nil {A : Type} (xs : list A) (x : A) : push xs x <> [].
Proof. unfold push. destruct xs; discriminate. Qed.

Lemma length_eqb_0 {A : Type} (xs : list A) :
  Nat.eqb (length xs) 0 = true <-> xs = [].
Proof. destruct xs; cbn; split; try reflexivity; discriminate. Qed.

(** A run that returned did not end in a [catch] clause that threw. *)
Ltac caught_returns H :=
  unfold caught in H;
  match type of H with
  | context [read_message ?e] => destruct (read_message e); [|discriminate H]
  end.

Section Departments.

Variable S : Type.
Variable dataLayer : DataLayer.t S.

(** The run of [validateDepartmentUpdate], by the answers of the port. *)
Lemma validateDepartmentUpdate_run (deptData : DeptData) w :
  validateDepartmentUpdate dataLayer deptData w =
    let errs := errors_on_entry deptData in
    let c1 :=
      DataLayer.GetDepartment (company deptData) (dept_id deptData) in
    let c2 := DataLayer.GetAllDepartment (company deptData) in
    match DataLayer.getDepartment dataLayer (company deptData)
            (dept_id deptData) (store w) with
    | (Throw e, s1) => (caught errs e, mkWorld s1 (trace w ++ [c1]))
    | (Return None, s1) =>
        (Return (mkResult false (push errs msg_not_found) None),
         mkWorld s1 (trace w ++ [c1]))
    | (Return (Some d), s1) =>
        if dept_no_changes deptData d then
          match DataLayer.getAllDepartment dataLayer (company deptData) s1
          with
          | (Throw e, s2) =>
              (caught errs e, mkWorld s2 ((trace w ++ [c1]) ++ [c2]))
          | (Return allDepartments, s2) =>
              let errs2 :=
                if existsb
                     (fun dept =>
                        strict_eq (getDeptNo dept) (dept_no deptData)
                        && strict_neq (getId dept) (dept_id deptData))
                     allDepartments
                then push errs msg_unique
                else errs in
              (Return (mkResult (Nat.eqb (length errs2) 0) errs2 (Some d)),
               mkWorld s2 ((trace w ++ [c1]) ++ [c2]))
          end
        else
          (Return (mkResult (Nat.eqb (length errs) 0) errs (Some d)),
           mkWorld s1 (trace w ++ [c1]))
    end.
Proof.
  cbv zeta.
  unfold validateDepartmentUpdate, try_catch, bind, lift, await, ret,
    errors_on_entry, dept_no_changes, caught, push.
  cbn [read_fields].
  destruct (DataLayer.getDepartment dataLayer (company deptData)
              (dept_id deptData) (store w)) as [[[d|]|e] s1];
    cbn [store trace].
  - destruct (truthy (dept_no deptData)
              && strict_neq (dept_no deptData) (getDeptNo d)).
    + cbn [store trace].
      destruct (DataLayer.getAllDepartment dataLayer (company deptData) s1)
        as [[allDepartments|e] s2]; cbn [store trace].
      * rewrite negb_involutive.
        destruct (negb (truthy (dept_id deptData))
                  || negb (truthy (company deptData))); reflexivity.
      * destruct (read_message e); reflexivity.
    + destruct (negb (truthy (dept_id deptData))
                || negb (truthy (company deptData))); reflexivity.
  - reflexivity.
  - destruct (read_message e); reflexivity.
Qed.

Lemma read_fields_raises arg :
  raises (read_fields arg)
  <-> arg = NotObject VUndefined \/ arg = NotObject VNull.
Proof.
  unfold raises. split.
  - intros [t Ht]. destruct arg as [p|[| |b|n| |s]]; try discriminate Ht.
    + left. reflexivity.
    + right. reflexivity.
  - intros [-> | ->]; eexists; reflexivity.
Qed.

Lemma read_message_raises e :
  raises (read_message e)
  <-> e = ThrownValue VUndefined \/ e = ThrownValue VNull.
Proof.
  unfold raises. split.
  - intros [t Ht]. destruct e as [err|[| |b|n| |s]]; try discriminate Ht.
    + left. reflexivity.
    + right. reflexivity.
  - intros [-> | ->]; eexists; reflexivity.
Qed.

(** The run on an argument is the run on the fields read off it. *)
Lemma validateDepartmentUpdate_fields arg (deptData : DeptData) w :
  read_fields arg = Return deptData ->
  validateDepartmentUpdate dataLayer arg w
  = validateDepartmentUpdate dataLayer deptData w.
Proof.
  intros Hf. unfold validateDepartmentUpdate, bind, lift.
  rewrite Hf. reflexivity.
Qed.

Lemma validateDepartmentUpdate_no_fields arg t w :
  read_fields arg = Throw t ->
  validateDepartmentUpdate dataLayer arg w = (Throw t, w).
Proof.
  intros Hf. unfold validateDepartmentUpdate, bind, lift.
  rewrite Hf. reflexivity.
Qed.

(** The fault of a run, if any, is the fault of one lookup. *)
Lemma lookup_fault_unique (deptData : DeptData) w e e' :
  lookup_fault dataLayer deptData w e ->
  lookup_fault dataLayer deptData w e' -> e = e'.
Proof.
  intros [s1 H1 | d s1 s2 H1 Hc H2] [s1' H1' | d' s1' s2' H1' Hc' H2'];
    rewrite H1 in H1'; try discriminate H1'.
  - injection H1' as <- _. reflexivity.
  - injection H1' as <- <-. rewrite H2 in H2'. injection H2' as <- _.
    reflexivity.
Qed.

(** A run is settled by the fault of its lookups: with none it returns a
    result, with one it ends as the [catch] clause does. *)
Lemma validateDepartmentUpdate_settled (deptData : DeptData) w :
  (exists e w',
     lookup_fault dataLayer deptData w e
     /\ validateDepartmentUpdate dataLayer deptData w
        = (caught (errors_on_entry deptData) e, w'))
  \/ ((forall e, ~ lookup_fault dataLayer deptData w e)
      /\ exists r w',
           validateDepartmentUpdate dataLayer deptData w = (Return r, w')).
Proof.
  rewrite validateDepartmentUpdate_run. cbv zeta.
  destruct (DataLayer.getDepartment dataLayer (company deptData)
              (dept_id deptData) (store w)) as [[[d|]|e] s1] eqn:H1.
  - destruct (dept_no_changes deptData d) eqn:Hc.
    + destruct (DataLayer.getAllDepartment dataLayer (company deptData) s1)
        as [[allDepartments|e] s2] eqn:H2.
      * right. split; [|eexists; eexists; reflexivity].
        intros e [s1' H1' | d' s1' s2' H1' Hc' H2'];
          rewrite H1 in H1'; [discriminate H1'|].
        injection H1' as <- <-. rewrite H2 in H2'. discriminate H2'.
      * left. exists e. eexists. split; [|reflexivity].
        exact (fault_getAllDepartment _ dataLayer _ _ _ d s1 s2 H1 Hc H2).
    + right. split; [|eexists; eexists; reflexivity].
      intros e [s1' H1' | d' s1' s2' H1' Hc' H2'];
        rewrite H1 in H1'; [discriminate H1'|].
      injection H1' as <- _. rewrite Hc in Hc'. discriminate Hc'.
  - right. split; [|eexists; eexists; reflexivity].
    intros e [s1' H1' | d' s1' s2' H1' Hc' H2'];
      rewrite H1 in H1'; discriminate H1'.
  - left. exists e. eexists. split; [|reflexivity].
    exact (fault_getDepartment _ dataLayer _ _ _ s1 H1).
Qed.

(** C1, as amended.  [validateDepartmentUpdate] raises in two cases
    only: the argument is undefined or null, and the read of [dept_id]
    outside the [try] block throws; or a lookup rejects with undefined or
    null, and the read of [error.message] in the [catch] clause throws.
    For every other argument and every other behaviour of the data layer
    it returns a result, and the fault of a lookup, an [Error] object or
    a primitive value, becomes the last entry of the errors of an
    invalid result. *)
Theorem validateDepartmentUpdate_raises_iff (arg : Argument) w :
  (raises (fst (validateDepartmentUpdate dataLayer arg w))
   <-> (arg = NotObject VUndefined \/ arg = NotObject VNull)
       \/ exists deptData e,
            read_fields arg = Return deptData
            /\ lookup_fault dataLayer deptData w e
            /\ (e = ThrownValue VUndefined \/ e = ThrownValue VNull))
  /\ ((exists r, fst (validateDepartmentUpdate dataLayer arg w) = Return r)
      <-> ~ raises (fst (validateDepartmentUpdate dataLayer arg w)))
  /\ (forall deptData e text,
        read_fields arg = Return deptData ->
        lookup_fault dataLayer deptData w e ->
        read_message e = Return text ->
        exists w',
          validateDepartmentUpdate dataLayer arg w
          = (Return (mkResult false
                       (push (errors_on_entry deptData)
                          ("Validation error: " ++ text))
                       None), w'))
  /\ (forall deptData (err : Error),
        read_fields arg = Return deptData ->
        lookup_fault dataLayer deptData w err ->
        exists w',
          validateDepartmentUpdate dataLayer arg w
          = (Return (mkResult false
                       (push (errors_on_entry deptData)
                          ("Validation error: " ++ message err))
                       None), w')).
Proof.
  assert (Hconv : forall deptData e text,
            read_fields arg = Return deptData ->
            lookup_fault dataLayer deptData w e ->
            read_message e = Return text ->
            exists w',
              validateDepartmentUpdate dataLayer arg w
              = (Return (mkResult false
                           (push (errors_on_entry deptData)
                              ("Validation error: " ++ text))
                           None), w')).
  { intros deptData e text Hf Hlf Hm.
    rewrite (validateDepartmentUpdate_fields _ _ _ Hf).
    destruct (validateDepartmentUpdate_settled deptData w)
      as [(e' & w' & Hlf' & Hrun) | [Hnone _]];
      [|destruct (Hnone e Hlf)].
    rewrite (lookup_fault_unique _ _ _ _ Hlf' Hlf) in Hrun.
    unfold caught in Hrun. rewrite Hm in Hrun.
    exists w'. exact Hrun. }
  split; [|split; [|split; [exact Hconv|]]].
  - destruct (read_fields arg) as [deptData|t] eqn:Hf.
    + rewrite (validateDepartmentUpdate_fields _ _ _ Hf).
      assert (Harg : ~ (arg = NotObject VUndefined \/ arg = NotObject VNull)).
      { intros Hn. apply read_fields_raises in Hn as [t Ht].
        rewrite Hf in Ht. discriminate Ht. }
      destruct (validateDepartmentUpdate_settled deptData w)
        as [(e & w' & Hlf & Hrun) | [Hnone (r & w' & Hrun)]];
        rewrite Hrun; cbn [fst].
      * unfold caught. split.
        -- intros Hr. right. exists deptData, e.
           split; [reflexivity|]. split; [exact Hlf|].
           apply read_message_raises.
           destruct (read_message e) as [text|t];
             [destruct Hr as [t Ht]; discriminate Ht | eexists; reflexivity].
        -- intros [Hn | (deptData' & e' & Hf' & Hlf' & He')];
             [destruct (Harg Hn)|].
           injection Hf' as <-.
           rewrite (lookup_fault_unique _ _ _ _ Hlf Hlf').
           apply read_message_raises in He' as [t Ht]. rewrite Ht.
           exists t. reflexivity.
      * split.
        -- intros [t Ht]. discriminate Ht.
        -- intros [Hn | (deptData' & e' & Hf' & Hlf' & _)];
             [destruct (Harg Hn)|].
           injection Hf' as <-. destruct (Hnone e' Hlf').
    + rewrite (validateDepartmentUpdate_no_fields _ _ _ Hf). cbn [fst].
      split.
      * intros _. left. apply read_fields_raises. rewrite Hf.
        exists t. reflexivity.
      * intros _. exists t. reflexivity.
  - unfold raises.
    destruct (fst (validateDepartmentUpdate dataLayer arg w)) as [r|t].
    + split; [intros _ [t Ht]; discriminate Ht|].
      intros _. exists r. reflexivity.
    + split; [intros [r Hr]; discriminate Hr|].
      intros Hn. exfalso. apply Hn. exists t. reflexivity.
  - intros deptData err Hf Hlf.
    exact (Hconv deptData (ThrownError err) (message err) Hf Hlf eq_refl).
Qed.

(** C3, as amended.  When the lookup finds no department, the result
    is invalid, its errors are the outcome of the required-fields check
    followed by "Department not found" (that message alone when
    [dept_id] and [company] are both given), and the lookup is the only
    call made on the port: no uniqueness query is issued. *)
Theorem validateDepartmentUpdate_not_found (deptData : DeptData) w s1 :
  DataLayer.getDepartment dataLayer (company deptData) (dept_id deptData)
    (store w) = (Return None, s1) ->
  validateDepartmentUpdate dataLayer deptData w
    = (Return (mkResult false (push (errors_on_entry deptData) msg_not_found)
                 None),
       mkWorld s1
         (trace w ++ [DataLayer.GetDepartment (company deptData)
                        (dept_id deptData)]))
  /\ (truthy (dept_id deptData) && truthy (company deptData) = true ->
      push (errors_on_entry deptData) msg_not_found
      = ["Department not found"])
  /\ (truthy (dept_id deptData) && truthy (company deptData) = false ->
      push (errors_on_entry deptData) msg_not_found
      = ["Department ID and company name are required";
         "Department not found"]).
Proof.
  intros H1. rewrite validateDepartmentUpdate_run. cbv zeta. rewrite H1.
  split; [reflexivity|].
  unfold errors_on_entry.
  destruct (truthy (dept_id deptData)), (truthy (company deptData));
    cbn; split; intros Ht; try discriminate Ht; reflexivity.
Qed.

(** C6. When the [dept_no] of the patch is the one of the stored
    department, the uniqueness check is skipped: the lookup of the
    department is the only call made on the port, and the result, which
    carries the department, has no uniqueness error, whatever the other
    departments are. *)
Theorem validateDepartmentUpdate_same_dept_no (deptData : DeptData) w d s1 :
  DataLayer.getDepartment dataLayer (company deptData) (dept_id deptData)
    (store w) = (Return (Some d), s1) ->
  dept_no deptData = getDeptNo d ->
  exists r,
    validateDepartmentUpdate dataLayer deptData w
      = (Return r,
         mkWorld s1
           (trace w ++ [DataLayer.GetDepartment (company deptData)
                          (dept_id deptData)]))
    /\ errors r = errors_on_entry deptData
    /\ ~ In msg_unique (errors r)
    /\ existingDept r = Some d.
Proof.
  intros H1 Hno. rewrite validateDepartmentUpdate_run. cbv zeta.
  rewrite H1. unfold dept_no_changes. rewrite <- Hno.
  rewrite strict_neq_same. eexists. split; [reflexivity|].
  cbn [errors existingDept]. repeat split.
  unfold errors_on_entry.
  destruct (_ || _); cbn [In]; intros Hf;
    [destruct Hf as [Hf|Hf]; [discriminate Hf | exact Hf] | exact Hf].
Qed.

(** A valid result carries the department. *)
Lemma valid_has_existingDept (deptData : DeptData) w r w' :
  validateDepartmentUpdate dataLayer deptData w = (Return r, w') ->
  valid r = true -> exists d, existingDept r = Some d.
Proof.
  rewrite validateDepartmentUpdate_run. cbv zeta.
  destruct (DataLayer.getDepartment dataLayer (company deptData)
              (dept_id deptData) (store w)) as [[[d|]|e] s1].
  - destruct (dept_no_changes deptData d).
    + destruct (DataLayer.getAllDepartment dataLayer (company deptData) s1)
        as [[allDepartments|e] s2];
        intros Hr; try caught_returns Hr;
        injection Hr as <- <-; cbn [valid existingDept];
        intros Hv; try discriminate; eexists; reflexivity.
    + intros Hr. try caught_returns Hr.
      injection Hr as <- <-. eexists. reflexivity.
  - intros Hr. try caught_returns Hr. injection Hr as <- <-. discriminate.
  - intros Hr. try caught_returns Hr. injection Hr as <- <-. discriminate.
Qed.

(** C10, the invariant half, for every result. *)
Lemma valid_iff_no_errors (deptData : DeptData) w r w' :
  validateDepartmentUpdate dataLayer deptData w = (Return r, w') ->
  valid r = true <-> errors r = [].
Proof.
  rewrite validateDepartmentUpdate_run. cbv zeta.
  destruct (DataLayer.getDepartment dataLayer (company deptData)
              (dept_id deptData) (store w)) as [[[d|]|e] s1].
  - destruct (dept_no_changes deptData d).
    + destruct (DataLayer.getAllDepartment dataLayer (company deptData) s1)
        as [[allDepartments|e] s2];
        intros Hr; try caught_returns Hr;
        injection Hr as <- <-; cbn [valid errors].
      * apply length_eqb_0.
      * split; [discriminate | intros Hn; destruct (push_not_nil _ _ Hn)].
    + intros Hr. try caught_returns Hr.
      injection Hr as <- <-. apply length_eqb_0.
  - intros Hr. try caught_returns Hr. injection Hr as <- <-. cbn [valid errors].
    split; [discriminate | intros Hn; destruct (push_not_nil _ _ Hn)].
  - intros Hr. try caught_returns Hr. injection Hr as <- <-. cbn [valid errors].
    split; [discriminate | intros Hn; destruct (push_not_nil _ _ Hn)].
Qed.

(** C10, as amended.  Every result has [valid] true exactly when its
    list of errors is empty; and when the lookup found the department
    and no lookup threw, the result carries the department, valid or
    not. *)
Theorem validateDepartmentUpdate_result_invariant (deptData : DeptData) w r w' :
  validateDepartmentUpdate dataLayer deptData w = (Return r, w') ->
  (valid r = true <-> errors r = [])
  /\ (forall d s1,
        DataLayer.getDepartment dataLayer (company deptData)
          (dept_id deptData) (store w) = (Return (Some d), s1) ->
        (forall e, ~ lookup_fault dataLayer deptData w e) ->
        existingDept r = Some d).
Proof.
  intros Hr. split; [exact (valid_iff_no_errors _ _ _ _ Hr)|].
  intros d s1 H1 Hnf.
  revert Hr. rewrite validateDepartmentUpdate_run. cbv zeta. rewrite H1.
  destruct (dept_no_changes deptData d) eqn:Hc.
  - destruct (DataLayer.getAllDepartment dataLayer (company deptData) s1)
      as [[allDepartments|e] s2] eqn:H2.
    + intros Hr. try caught_returns Hr. injection Hr as <- <-. reflexivity.
    + exfalso. apply (Hnf e).
      exact (fault_getAllDepartment _ dataLayer _ _ _ d s1 s2 H1 Hc H2).
  - intros Hr. try caught_returns Hr. injection Hr as <- <-. reflexivity.
Qed.

End Departments.

Section Update.

Variable S : Type.
Variable dataLayer : DataLayer.t S.

(** The result of a run that found the department carries it. *)
Lemma existingDept_is_found (deptData : DeptData) w r w' d :
  validateDepartmentUpdate dataLayer deptData w = (Return r, w') ->
  existingDept r = Some d ->
  exists s1,
    DataLayer.getDepartment dataLayer (company deptData)
      (dept_id deptData) (store w) = (Return (Some d), s1).
Proof.
  rewrite validateDepartmentUpdate_run. cbv zeta.
  destruct (DataLayer.getDepartment dataLayer (company deptData)
              (dept_id deptData) (store w)) as [[[d0|]|e] s1].
  - destruct (dept_no_changes deptData d0).
    + destruct (DataLayer.getAllDepartment dataLayer (company deptData) s1)
        as [[allDepartments|e] s2];
        intros Hr; try caught_returns Hr;
        injection Hr as <- <-; cbn [existingDept];
        intros Hd; try discriminate; injection Hd as ->;
        eexists; reflexivity.
    + intros Hr. try caught_returns Hr.
      injection Hr as <- <-. cbn [existingDept].
      intros Hd. injection Hd as ->. eexists. reflexivity.
  - intros Hr. try caught_returns Hr. injection Hr as <- <-. discriminate.
  - intros Hr. try caught_returns Hr. injection Hr as <- <-. discriminate.
Qed.

(** C5. For a patch that passes validation and has no [dept_name] and
    no [dept_no], [updateDepartment] hands to the update operation of
    the data layer the department the lookup returned with, at most, its
    location replaced: the name and the number are the stored ones. *)
Theorem updateDepartment_location_only (deptData : DeptData) w r w1 :
  truthy (dept_name deptData) = false ->
  truthy (dept_no deptData) = false ->
  validateDepartmentUpdate dataLayer deptData w = (Return r, w1) ->
  valid r = true ->
  exists d s1 d',
    DataLayer.getDepartment dataLayer (company deptData)
      (dept_id deptData) (store w) = (Return (Some d), s1)
    /\ updateDepartment dataLayer deptData w
       = await (DataLayer.UpdateDepartment d')
           (DataLayer.updateDepartment dataLayer d') w1
    /\ d' = (if truthy (location deptData)
             then setLocation d (location deptData) else d)
    /\ getDeptName d' = getDeptName d
    /\ getDeptNo d' = getDeptNo d
    /\ getId d' = getId d
    /\ getCompany d' = getCompany d.
Proof.
  intros Hname Hno Hr Hv.
  destruct (valid_has_existingDept _ _ _ _ _ _ Hr Hv) as [d Hd].
  destruct (existingDept_is_found _ _ _ _ _ Hr Hd) as [s1 H1].
  exists d, s1.
  exists (if truthy (location deptData)
          then setLocation d (location deptData) else d).
  split; [exact H1|]. split.
  - unfold updateDepartment, bind, lift. rewrite Hr, Hv, Hd.
    cbn [negb read_fields]. rewrite Hname, Hno. reflexivity.
  - split; [reflexivity|].
    destruct (truthy (location deptData)); repeat split.
Qed.

(** C8, as amended.  [validateManager(0)] passes without a call on the
    data layer.  For another [mngId] it raises exactly when the lookup
    of the employee returns no employee or throws: the fault of the
    lookup is raised unchanged, and a missing employee is reported as
    an invalid manager ID. *)
Theorem validateManager_raises_iff mngId w :
  validateManager dataLayer (VNum 0) w = (Return tt, w)
  /\ (strict_eq mngId (VNum 0) = false ->
      let lookup := fst (DataLayer.getEmployee dataLayer mngId (store w)) in
      (raises (fst (validateManager dataLayer mngId w))
       <-> lookup = Return None \/ raises lookup)
      /\ (lookup = Return None ->
          fst (validateManager dataLayer mngId w)
          = Throw (mkError (msg_manager mngId)))
      /\ (forall e, lookup = Throw e ->
          fst (validateManager dataLayer mngId w) = Throw e)).
Proof.
  split; [reflexivity|].
  intros Hne. cbv zeta. unfold validateManager, bind, await, raises.
  rewrite Hne.
  destruct (DataLayer.getEmployee dataLayer mngId (store w))
    as [[[emp|]|e] s1]; cbn [fst].
  - repeat split; try discriminate.
    + intros [e He]. discriminate.
    + intros [Hl|[e He]]; discriminate.
  - repeat split; try discriminate.
    + intros _. left. reflexivity.
    + intros _. eexists. reflexivity.
  - repeat split; try discriminate.
    + intros _. right. eexists. reflexivity.
    + intros _. eexists. reflexivity.
    + intros e' He. injection He as ->. reflexivity.
Qed.

End Update.

(** ** Runs on concrete inputs *)

Example clock_reading :
  parseDateTime 0 "2024-01-03 18:30:00" = Some wednesday_18_30.
Proof. reflexivity. Qed.

(** C2. The claim does not hold of the code: at 18:01 on a weekday of the
    current week the hour is 18, which the test [startHour > 18] lets
    through, and [validateStartTime] returns.  Here the clock reads
    Wednesday 2024-01-03 18:30 and the start time is 18:01 of that day. *)
Theorem validateStartTime_accepts_18_01 :
  exists t,
    parseDateTime 0 (replace " " "T" "2024-01-03 18:01:00") = Some t
    /\ WeekDay (LocalTime 0 t) = 3
    /\ HourFromTime (LocalTime 0 t) = 18
    /\ MinFromTime (LocalTime 0 t) = 1
    /\ num_lt (Some t) (previousMonday 0 wednesday_18_30) = false
    /\ t <= wednesday_18_30
    /\ validateStartTime 0 (parseDateTime 0) wednesday_18_30
         "2024-01-03 18:01:00" = Return tt.
Proof.
  eexists. split; [reflexivity|].
  repeat split; vm_compute; try reflexivity; discriminate.
Qed.

(** The rest of the claim holds: 08:00 and 18:00 pass, 07:59 fails. *)
Example validateStartTime_edges :
  validateStartTime 0 (parseDateTime 0) wednesday_18_30 "2024-01-03 08:00:00"
    = Return tt
  /\ validateStartTime 0 (parseDateTime 0) wednesday_18_30
       "2024-01-03 18:00:00" = Return tt
  /\ validateStartTime 0 (parseDateTime 0) wednesday_18_30
       "2024-01-03 07:59:00" = Throw (mkError msg_start_hours)
  /\ validateStartTime 0 (parseDateTime 0) wednesday_18_30
       "2024-01-03 19:00:00" = Throw (mkError msg_start_hours).
Proof. repeat split; vm_compute; reflexivity. Qed.

Example validateHireDate_examples :
  validateHireDate 0 wednesday_18_30 "2024-01-01" = Return tt
  /\ raises (validateHireDate 0 wednesday_18_30 "2023-12-30")
  /\ raises (validateHireDate 0 wednesday_18_30 "2024-01-04")
  /\ raises (validateHireDate 0 wednesday_18_30 "01/01/2024")
  /\ raises (validateHireDate 0 wednesday_18_30 "2023-02-29").
Proof. repeat split; vm_compute; eexists; reflexivity. Qed.

(** C3, as stated, fails: a patch without company whose lookup finds no
    department gets two errors, not the single "Department not found". *)
Lemma missing_company_gives_two_errors :
  fst (DataLayer.getDepartment memoryLayer (company patch_without_company)
         (dept_id patch_without_company) acme) = Return None
  /\ fst (validateDepartmentUpdate memoryLayer patch_without_company
            (start_world acme))
     = Return (mkResult false
                 ["Department ID and company name are required";
                  "Department not found"] None)
  /\ ["Department ID and company name are required"; "Department not found"]
     <> ["Department not found"].
Proof. repeat split; try reflexivity. discriminate. Qed.

Lemma validateDepartmentUpdate_not_found_witness :
  validateDepartmentUpdate memoryLayer patch_unknown (start_world acme)
  = (Return (mkResult false ["Department not found"] None),
     mkWorld acme [DataLayer.GetDepartment (VStr "acme") (VNum 99)]).
Proof.
  destruct (validateDepartmentUpdate_not_found Tables memoryLayer
              patch_unknown (start_world acme) acme) as [Hrun _].
  - reflexivity.
  - exact Hrun.
Defined.

Lemma validateEndTime_duration_check_witness :
  validateEndTime 0 (parseDateTime 0) "2024-01-03 09:00:00"
    "2024-01-03 09:59:00" = Throw (mkError msg_end_duration)
  /\ validateEndTime 0 (parseDateTime 0) "2024-01-03 09:00:00"
       "2024-01-03 10:00:00" <> Throw (mkError msg_end_duration)
  /\ validateEndTime 0 (parseDateTime 0) "2024-01-03 09:00:00"
       "2024-01-03 08:00:00" = Throw (mkError msg_end_duration).
Proof.
  split; [|split].
  - destruct (validateEndTime_duration_check 0 (parseDateTime 0)
                "2024-01-03 09:00:00" "2024-01-03 09:59:00" 1704275940000)
      as [_ Hcases]; [reflexivity|].
    destruct (Hcases 1704272400000 eq_refl) as [_ [H59 _]].
    apply H59. reflexivity.
  - destruct (validateEndTime_duration_check 0 (parseDateTime 0)
                "2024-01-03 09:00:00" "2024-01-03 10:00:00" 1704276000000)
      as [_ Hcases]; [reflexivity|].
    destruct (Hcases 1704272400000 eq_refl) as [H60 _].
    apply H60. reflexivity.
  - destruct (validateEndTime_duration_check 0 (parseDateTime 0)
                "2024-01-03 09:00:00" "2024-01-03 08:00:00" 1704268800000)
      as [_ Hcases]; [reflexivity|].
    destruct (Hcases 1704272400000 eq_refl) as [_ [_ Hneg]].
    apply Hneg. reflexivity.
Defined.

Lemma validateEndTime_unparsable_start_witness :
  validateEndTime 0 (parseDateTime 0) "yesterday" "2024-01-03 10:00:00"
  = Throw (mkError msg_end_same_day).
Proof.
  destruct (validateEndTime_unparsable_start 0 (parseDateTime 0)
              "yesterday" "2024-01-03 10:00:00" 1704276000000) as [_ H].
  - reflexivity.
  - reflexivity.
  - exact H.
Defined.

Lemma updateDepartment_location_only_witness :
  exists d',
    updateDepartment memoryLayer patch_location (start_world acme)
    = await (DataLayer.UpdateDepartment d')
        (DataLayer.updateDepartment memoryLayer d')
        (mkWorld acme [DataLayer.GetDepartment (VStr "acme") (VNum 1)])
    /\ getDeptName d' = VStr "Sales"
    /\ getDeptNo d' = VStr "D10"
    /\ getLocation d' = VStr "Denver".
Proof.
  destruct (updateDepartment_location_only Tables memoryLayer patch_location
              (start_world acme)
              (mkResult true [] (Some sales))
              (mkWorld acme [DataLayer.GetDepartment (VStr "acme") (VNum 1)]))
    as (d & s1 & d' & H1 & Hrun & Hd' & _).
  - reflexivity.
  - reflexivity.
  - reflexivity.
  - reflexivity.
  - exists d'. split; [exact Hrun|].
    vm_compute in H1. injection H1 as <- _. rewrite Hd'.
    repeat split.
Defined.

Lemma validateDepartmentUpdate_same_dept_no_witness :
  In outlet (departments acme)
  /\ getDeptNo outlet = dept_no patch_same_number
  /\ validateDepartmentUpdate memoryLayer patch_same_number (start_world acme)
     = (Return (mkResult true [] (Some sales)),
        mkWorld acme [DataLayer.GetDepartment (VStr "acme") (VNum 1)]).
Proof.
  split; [right; right; left; reflexivity|]. split; [reflexivity|].
  destruct (validateDepartmentUpdate_same_dept_no Tables memoryLayer
              patch_same_number (start_world acme) sales acme)
    as (r & Hrun & _).
  - reflexivity.
  - reflexivity.
  - reflexivity.
Defined.

(** C8, as stated, fails: when the lookup throws, [validateManager]
    raises although the lookup did not return an absent employee. *)
Lemma manager_lookup_fault_is_raised :
  strict_eq (VNum 5) (VNum 0) = false
  /\ raises (fst (validateManager downLayer (VNum 5) (start_world acme)))
  /\ fst (DataLayer.getEmployee downLayer (VNum 5) acme) <> Return None.
Proof.
  split; [reflexivity|]. split; [eexists; reflexivity | discriminate].
Qed.

Lemma validateManager_raises_iff_witness :
  fst (validateManager memoryLayer (VNum 5) (start_world acme))
  = Throw (mkError "Invalid manager ID: 5.")
  /\ fst (validateManager downLayer (VNum 5) (start_world acme))
     = Throw (mkError "connection refused").
Proof.
  split.
  - destruct (validateManager_raises_iff Tables memoryLayer (VNum 5)
                (start_world acme)) as [_ H].
    destruct (H eq_refl) as [_ [Habsent _]].
    apply Habsent. reflexivity.
  - destruct (validateManager_raises_iff Tables downLayer (VNum 5)
                (start_world acme)) as [_ H].
    destruct (H eq_refl) as [_ [_ Hfault]].
    apply Hfault. reflexivity.
Defined.

(** C10, as stated, fails: the lookup finds the department, the listing
    of the departments throws, and the result has no [existingDept]. *)
Lemma listing_fault_drops_existingDept :
  fst (DataLayer.getDepartment lossyLayer (company patch_new_number)
         (dept_id patch_new_number) acme) = Return (Some sales)
  /\ fst (validateDepartmentUpdate lossyLayer patch_new_number
            (start_world acme))
     = Return (mkResult false ["Validation error: connection lost"] None).
Proof. split; reflexivity. Qed.

Lemma validateDepartmentUpdate_result_invariant_witness :
  fst (validateDepartmentUpdate memoryLayer patch_taken_number
         (start_world acme)) = Return result_taken_number
  /\ (valid result_taken_number = true <-> errors result_taken_number = [])
  /\ existingDept result_taken_number = Some research.
Proof.
  split; [reflexivity|].
  destruct (validateDepartmentUpdate_result_invariant Tables memoryLayer
              patch_taken_number (start_world acme) result_taken_number
              (mkWorld acme
                 [DataLayer.GetDepartment (VStr "acme") (VNum 2);
                  DataLayer.GetAllDepartment (VStr "acme")]))
    as [Hinv Hdept]; [reflexivity|].
  split; [exact Hinv|].
  apply (Hdept research acme); [reflexivity|].
  intros e Hf. destruct Hf as [s1 H1 | d s1 s2 H1 Hc H2].
  - vm_compute in H1. discriminate H1.
  - vm_compute in H2. discriminate H2.
Defined.

(** C1, as stated, fails: on an undefined argument the read of
    [dept_id] throws before the [try] block is entered, and when a lookup
    rejects with undefined the [catch] clause throws on the read of
    [error.message]; in both cases [validateDepartmentUpdate] raises. *)
Lemma validateDepartmentUpdate_can_raise :
  raises (fst (validateDepartmentUpdate memoryLayer (NotObject VUndefined)
                 (start_world acme)))
  /\ fst (DataLayer.getDepartment rejectingLayer (company patch_location)
            (dept_id patch_location) acme) = Throw (ThrownValue VUndefined)
  /\ raises (fst (validateDepartmentUpdate rejectingLayer patch_location
                    (start_world acme))).
Proof.
  split; [eexists; reflexivity|]. split; [reflexivity|].
  eexists. reflexivity.
Qed.

(** The faults of the port end up in the list of errors. *)
Example validateDepartmentUpdate_on_downLayer :
  validateDepartmentUpdate downLayer patch_location (start_world acme)
  = (Return (mkResult false ["Validation error: connection refused"] None),
     mkWorld acme [DataLayer.GetDepartment (VStr "acme") (VNum 1)]).
Proof. reflexivity. Qed.

Example validateDepartmentUpdate_on_lossyLayer :
  validateDepartmentUpdate lossyLayer patch_new_number (start_world acme)
  = (Return (mkResult false ["Validation error: connection lost"] None),
     mkWorld acme [DataLayer.GetDepartment (VStr "acme") (VNum 1);
                   DataLayer.GetAllDepartment (VStr "acme")]).
Proof. reflexivity. Qed.

(** An invalid patch makes [updateDepartment] raise with the errors
    joined, and nothing is written. *)
Example updateDepartment_refused :
  updateDepartment memoryLayer patch_without_company (start_world acme)
  = (Throw (mkError
       "Validation failed: Department ID and company name are required, Department not found"),
     mkWorld acme [DataLayer.GetDepartment VUndefined (VNum 99)]).
Proof. reflexivity. Qed.

(** * Further properties *)

(** ** Validation and update of a department *)

Section DepartmentValidation.

Variable S : Type.
Variable dataLayer : DataLayer.t S.

(** The calls a validation adds to the trace. *)
Lemma validateDepartmentUpdate_calls (deptData : DeptData) w r w' :
  validateDepartmentUpdate dataLayer deptData w = (Return r, w') ->
  trace w'
  = (trace w
     ++ [DataLayer.GetDepartment (company deptData) (dept_id deptData)])%list
  \/ trace w'
     = (trace w
        ++ [DataLayer.GetDepartment (company deptData) (dept_id deptData);
            DataLayer.GetAllDepartment (company deptData)])%list.
Proof.
  rewrite validateDepartmentUpdate_run. cbv zeta.
  destruct (DataLayer.getDepartment dataLayer (company deptData)
              (dept_id deptData) (store w)) as [[[d|]|e] s1].
  - destruct (dept_no_changes deptData d).
    + destruct (DataLayer.getAllDepartment dataLayer (company deptData) s1)
        as [[allDepartments|e] s2];
        intros Hr; try caught_returns Hr;
        injection Hr as _ <-; right; cbn [trace];
        rewrite <- app_assoc; reflexivity.
    + intros Hr. try caught_returns Hr. injection Hr as _ <-. left. reflexivity.
  - intros Hr. try caught_returns Hr. injection Hr as _ <-. left. reflexivity.
  - intros Hr. try caught_returns Hr. injection Hr as _ <-. left. reflexivity.
Qed.

(** X1. [validateDepartmentUpdate] only reads.  On undefined or null
    it raises before any call.  On every other argument it looks the
    department up, and lists the departments of the patch's company
    exactly when the lookup found a department whose number the patch
    changes; it makes no other call on the port, whatever the calls
    answer, and a result it returns has at most two errors. *)
Theorem validateDepartmentUpdate_reads_only (arg : Argument) w :
  match read_fields arg with
  | Throw t => validateDepartmentUpdate dataLayer arg w = (Throw t, w)
  | Return deptData =>
      exists calls,
        trace (snd (validateDepartmentUpdate dataLayer arg w))
        = (trace w
           ++ DataLayer.GetDepartment (company deptData) (dept_id deptData)
              :: calls)%list
        /\ (calls = []
            \/ calls = [DataLayer.GetAllDepartment (company deptData)])
        /\ (calls <> []
            <-> exists d s1,
                  DataLayer.getDepartment dataLayer (company deptData)
                    (dept_id deptData) (store w) = (Return (Some d), s1)
                  /\ dept_no_changes deptData d = true)
        /\ (forall r,
              fst (validateDepartmentUpdate dataLayer arg w) = Return r ->
              (length (errors r) <= 2)%nat)
  end.
Proof.
  destruct (read_fields arg) as [deptData|t] eqn:Hf;
    [|exact (validateDepartmentUpdate_no_fields _ _ _ _ _ Hf)].
  rewrite (validateDepartmentUpdate_fields _ _ _ _ _ Hf).
  rewrite validateDepartmentUpdate_run. cbv zeta.
  assert (Hlen : (length (errors_on_entry deptData) <= 1)%nat).
  { unfold errors_on_entry. destruct (_ || _); cbn; lia. }
  assert (Hpush : forall x,
            (length (push (errors_on_entry deptData) x) <= 2)%nat).
  { intros x. unfold push. rewrite length_app. cbn. lia. }
  assert (Hcaught : forall e r,
            caught (errors_on_entry deptData) e = Return r ->
            (length (errors r) <= 2)%nat).
  { intros e r. unfold caught. destruct (read_message e); [|discriminate].
    intros Hr. injection Hr as <-. apply Hpush. }
  destruct (DataLayer.getDepartment dataLayer (company deptData)
              (dept_id deptData) (store w)) as [[[d|]|e] s1].
  - destruct (dept_no_changes deptData d) eqn:Hc.
    + destruct (DataLayer.getAllDepartment dataLayer (company deptData) s1)
        as [[allDepartments|e] s2];
        exists [DataLayer.GetAllDepartment (company deptData)];
        cbn [fst snd trace];
        (split; [rewrite <- app_assoc; reflexivity|]);
        (split; [right; reflexivity|]);
        (split; [split; [intros _; exists d, s1; split; [reflexivity|exact Hc]
                        | intros _; discriminate]|]).
      * intros r Hr. injection Hr as <-. cbn [errors].
        destruct (existsb _ _); [apply Hpush | lia].
      * apply Hcaught.
    + exists []. cbn [fst snd trace]. split; [reflexivity|].
      split; [left; reflexivity|]. split.
      * split; [intros Hn; destruct (Hn eq_refl)|].
        intros (d' & s1' & H1 & Hc'). injection H1 as <- _.
        rewrite Hc in Hc'. discriminate.
      * intros r Hr. injection Hr as <-. cbn [errors]. lia.
  - exists []. cbn [fst snd trace]. split; [reflexivity|].
    split; [left; reflexivity|]. split.
    + split; [intros Hn; destruct (Hn eq_refl)|].
      intros (d' & s1' & H1 & _). discriminate.
    + intros r Hr. injection Hr as <-. apply Hpush.
  - exists []. cbn [fst snd trace]. split; [reflexivity|].
    split; [left; reflexivity|]. split.
    + split; [intros Hn; destruct (Hn eq_refl)|].
      intros (d' & s1' & H1 & _). discriminate.
    + apply Hcaught.
Qed.

(** X2. When the uniqueness check is made and the listing returns, the
    result has the uniqueness error exactly when a listed department has
    the number of the patch and another id; the department under update
    never counts against itself. *)
Theorem validateDepartmentUpdate_unique_iff
  (deptData : DeptData) w d s1 allDepartments s2 :
  DataLayer.getDepartment dataLayer (company deptData) (dept_id deptData)
    (store w) = (Return (Some d), s1) ->
  dept_no_changes deptData d = true ->
  DataLayer.getAllDepartment dataLayer (company deptData) s1
    = (Return allDepartments, s2) ->
  exists r w',
    validateDepartmentUpdate dataLayer deptData w = (Return r, w')
    /\ existingDept r = Some d
    /\ (In msg_unique (errors r)
        <-> exists dept, In dept allDepartments
                         /\ strict_eq (getDeptNo dept) (dept_no deptData) = true
                         /\ strict_eq (getId dept) (dept_id deptData) = false)
    /\ (In msg_unique (errors r) -> valid r = false).
Proof.
  intros H1 Hc H2. rewrite validateDepartmentUpdate_run. cbv zeta.
  rewrite H1, Hc, H2. eexists. eexists. split; [reflexivity|].
  cbn [existingDept errors valid]. split; [reflexivity|].
  assert (Hentry : ~ In msg_unique (errors_on_entry deptData)).
  { unfold errors_on_entry. destruct (_ || _); cbn [In]; intros Hf;
      [destruct Hf as [Hf|Hf]; [discriminate Hf | exact Hf] | exact Hf]. }
  destruct (existsb _ allDepartments) eqn:Hex.
  - split; [split|].
    + intros _. apply existsb_exists in Hex as [dept [Hin Hcl]].
      apply andb_prop in Hcl as [Hno Hid].
      exists dept. split; [exact Hin|]. split; [exact Hno|].
      unfold strict_neq in Hid. apply negb_true_iff in Hid. exact Hid.
    + intros _. unfold push. apply in_or_app. right. left. reflexivity.
    + intros _. unfold push. rewrite length_app. cbn.
      destruct (length (errors_on_entry deptData)); reflexivity.
  - split; [split|].
    + intros Hin. destruct (Hentry Hin).
    + intros [dept [Hin [Hno Hid]]]. exfalso.
      assert (Ht : existsb
                (fun dept0 =>
                   strict_eq (getDeptNo dept0) (dept_no deptData)
                   && strict_neq (getId dept0) (dept_id deptData))
                allDepartments = true).
      { apply existsb_exists. exists dept. split; [exact Hin|].
        unfold strict_neq. rewrite Hno, Hid. reflexivity. }
      rewrite Hex in Ht. discriminate.
    + intros Hin. destruct (Hentry Hin).
Qed.

End DepartmentValidation.

Section DepartmentUpdate.

Variable S : Type.
Variable dataLayer : DataLayer.t S.

Lemma errors_on_entry_nil (deptData : DeptData) :
  errors_on_entry deptData = []
  <-> truthy (dept_id deptData) = true /\ truthy (company deptData) = true.
Proof.
  unfold errors_on_entry.
  destruct (truthy (dept_id deptData)), (truthy (company deptData));
    cbn; split; try discriminate; try tauto;
    intros [Ha Hb]; discriminate.
Qed.

(** X3. What makes a patch valid: [dept_id] and [company] are truthy,
    the lookup returns a department, and either the patch does not
    change the number or the listing returns and no listed department
    clashes. *)
Theorem validateDepartmentUpdate_valid_iff (deptData : DeptData) w r w' :
  validateDepartmentUpdate dataLayer deptData w = (Return r, w') ->
  valid r = true
  <-> truthy (dept_id deptData) = true
      /\ truthy (company deptData) = true
      /\ exists d s1,
           DataLayer.getDepartment dataLayer (company deptData)
             (dept_id deptData) (store w) = (Return (Some d), s1)
           /\ (dept_no_changes deptData d = false
               \/ exists allDepartments s2,
                    DataLayer.getAllDepartment dataLayer (company deptData) s1
                      = (Return allDepartments, s2)
                    /\ existsb (clashes deptData) allDepartments = false).
Proof.
  rewrite validateDepartmentUpdate_run. cbv zeta.
  destruct (DataLayer.getDepartment dataLayer (company deptData)
              (dept_id deptData) (store w)) as [[[d|]|e] s1].
  - destruct (dept_no_changes deptData d) eqn:Hc.
    + destruct (DataLayer.getAllDepartment dataLayer (company deptData) s1)
        as [[allDepartments|e] s2] eqn:H2;
        intros Hr; try caught_returns Hr; injection Hr as <- _; cbn [valid].
      * change (fun dept : Department =>
                  strict_eq (getDeptNo dept) (dept_no deptData)
                  && strict_neq (getId dept) (dept_id deptData))
          with (clashes deptData).
        destruct (existsb (clashes deptData) allDepartments) eqn:Hex.
        -- split.
           ++ intros Hv. apply length_eqb_0 in Hv.
              destruct (push_not_nil _ _ Hv).
           ++ intros (_ & _ & d' & s1' & H1 & [Hn | (ds & s2' & H2' & Hex')]).
              ** injection H1 as <- _. rewrite Hc in Hn. discriminate.
              ** injection H1 as <- <-. rewrite H2 in H2'.
                 injection H2' as <- _. rewrite Hex in Hex'. discriminate.
        -- rewrite length_eqb_0, errors_on_entry_nil. split.
           ++ intros [Ha Hb]. split; [exact Ha|]. split; [exact Hb|].
              exists d, s1. split; [reflexivity|]. right.
              exists allDepartments, s2. split; [exact H2 | exact Hex].
           ++ intros (Ha & Hb & _). split; assumption.
      * split; [discriminate|].
        intros (_ & _ & d' & s1' & H1 & [Hn | (ds & s2' & H2' & _)]).
        -- injection H1 as <- _. rewrite Hc in Hn. discriminate.
        -- injection H1 as <- <-. rewrite H2 in H2'. discriminate.
    + intros Hr. try caught_returns Hr. injection Hr as <- _. cbn [valid].
      rewrite length_eqb_0, errors_on_entry_nil. split.
      * intros [Ha Hb]. split; [exact Ha|]. split; [exact Hb|].
        exists d, s1. split; [reflexivity|]. left. exact Hc.
      * intros (Ha & Hb & _). split; assumption.
  - intros Hr. try caught_returns Hr.
    injection Hr as <- _. cbn [valid]. split; [discriminate|].
    intros (_ & _ & d' & s1' & H1 & _). discriminate.
  - intros Hr. try caught_returns Hr.
    injection Hr as <- _. cbn [valid]. split; [discriminate|].
    intros (_ & _ & d' & s1' & H1 & _). discriminate.
Qed.

(** [updateDepartment] by the result of the validation. *)
Lemma updateDepartment_run (deptData : DeptData) w r w1 :
  validateDepartmentUpdate dataLayer deptData w = (Return r, w1) ->
  updateDepartment dataLayer deptData w =
    if valid r then
      match existingDept r with
      | Some d =>
          await (DataLayer.UpdateDepartment (apply_patch deptData d))
            (DataLayer.updateDepartment dataLayer (apply_patch deptData d)) w1
      | None => (Throw (mkError "Cannot read properties of undefined"), w1)
      end
    else
      (Throw (mkError ("Validation failed: " ++ join ", " (errors r))), w1).
Proof.
  intros Hr. unfold updateDepartment, bind, lift. rewrite Hr.
  destruct (valid r); cbn [negb]; [|reflexivity].
  destruct (existingDept r) as [d|]; [|reflexivity].
  cbn [read_fields].
  unfold apply_patch, patched, setDeptName, setDeptNo, setLocation.
  destruct d as [c i n no l].
  destruct (truthy (dept_name deptData)), (truthy (dept_no deptData)),
    (truthy (location deptData)); reflexivity.
Qed.

(** X4. A patch that fails validation is never written:
    [updateDepartment] raises with the errors joined by a comma and a
    space, and the calls it made on the port are lookups only. *)
Theorem updateDepartment_invalid_never_writes (deptData : DeptData) w r w1 :
  validateDepartmentUpdate dataLayer deptData w = (Return r, w1) ->
  valid r = false ->
  updateDepartment dataLayer deptData w
    = (Throw (mkError ("Validation failed: " ++ join ", " (errors r))), w1)
  /\ exists calls,
       trace w1 = (trace w ++ calls)%list
       /\ existsb is_UpdateDepartment calls = false.
Proof.
  intros Hr Hv. rewrite (updateDepartment_run _ _ _ _ Hr), Hv.
  split; [reflexivity|].
  destruct (validateDepartmentUpdate_calls _ _ _ _ _ _ Hr) as [Ht|Ht];
    eexists; (split; [exact Ht | reflexivity]).
Qed.

(** X5. A valid patch is written field by field: the record handed to
    the update operation has the id and the company of the stored
    department, and for the name, the number and the location the value
    of the patch when it is truthy and the stored value otherwise (a
    missing, empty or zero field changes nothing).  The update is the
    last call, made once, and its outcome, result or fault, is the
    outcome of [updateDepartment]. *)
Theorem updateDepartment_writes_patched_record (deptData : DeptData) w r w1 :
  validateDepartmentUpdate dataLayer deptData w = (Return r, w1) ->
  valid r = true ->
  exists d s1,
    DataLayer.getDepartment dataLayer (company deptData) (dept_id deptData)
      (store w) = (Return (Some d), s1)
    /\ fst (updateDepartment dataLayer deptData w)
       = fst (DataLayer.updateDepartment dataLayer (apply_patch deptData d)
                (store w1))
    /\ store (snd (updateDepartment dataLayer deptData w))
       = snd (DataLayer.updateDepartment dataLayer (apply_patch deptData d)
                (store w1))
    /\ trace (snd (updateDepartment dataLayer deptData w))
       = (trace w1
          ++ [DataLayer.UpdateDepartment (apply_patch deptData d)])%list
    /\ existsb is_UpdateDepartment
         (removelast (trace (snd (updateDepartment dataLayer deptData w))))
       = existsb is_UpdateDepartment (trace w).
Proof.
  intros Hr Hv.
  destruct (valid_has_existingDept _ _ _ _ _ _ Hr Hv) as [d Hd].
  destruct (existingDept_is_found _ _ _ _ _ _ _ Hr Hd) as [s1 H1].
  exists d, s1. split; [exact H1|].
  rewrite (updateDepartment_run _ _ _ _ Hr), Hv, Hd. unfold await.
  destruct (DataLayer.updateDepartment dataLayer (apply_patch deptData d)
              (store w1)) as [o s2].
  cbn [fst snd store trace]. repeat split.
  rewrite removelast_last.
  destruct (validateDepartmentUpdate_calls _ _ _ _ _ _ Hr) as [Ht|Ht];
    rewrite Ht, existsb_app; cbn; apply orb_false_r.
Qed.

(** X6. The existence check and the update agree.  When the lookup
    finds no department, [validateDepartment] raises, naming the id and
    the company, and [updateDepartment] raises too with "Department not
    found" as its last error, after that one lookup. *)
Theorem missing_department_is_refused (deptData : DeptData) w s1 :
  DataLayer.getDepartment dataLayer (company deptData) (dept_id deptData)
    (store w) = (Return None, s1) ->
  let w1 :=
    mkWorld s1
      (trace w
       ++ [DataLayer.GetDepartment (company deptData) (dept_id deptData)])
  in
  validateDepartment dataLayer (company deptData) (dept_id deptData) w
    = (Throw (mkError ("Invalid department ID: " ++ ToString (dept_id deptData)
                       ++ " does not exist in company '"
                       ++ ToString (company deptData) ++ "'.")), w1)
  /\ updateDepartment dataLayer deptData w
     = (Throw (mkError
                 ("Validation failed: "
                  ++ join ", "
                       (push (errors_on_entry deptData) msg_not_found))), w1).
Proof.
  intros H1 w1. split.
  - unfold validateDepartment, bind, await, throw. rewrite H1. reflexivity.
  - assert (Hr : validateDepartmentUpdate dataLayer deptData w
                 = (Return (mkResult false
                              (push (errors_on_entry deptData) msg_not_found)
                              None), w1)).
    { rewrite validateDepartmentUpdate_run. cbv zeta. rewrite H1.
      reflexivity. }
    rewrite (updateDepartment_run _ _ _ _ Hr). reflexivity.
Qed.

End DepartmentUpdate.

(** ** Employees and managers *)

Section Employees.

Variable S : Type.
Variable dataLayer : DataLayer.t S.

(** X7. The existence check and the uniqueness check of an employee are
    opposite: whatever the data layer answers, at most one of
    [validateEmployee] and [validateEmployeeNumber] passes for an id, both
    raise only when the lookup itself throws, and both leave the same
    world after their one lookup. *)
Theorem validateEmployee_against_validateEmployeeNumber id w :
  let lookup := fst (DataLayer.getEmployee dataLayer id (store w)) in
  (fst (validateEmployee dataLayer id w) = Return tt
   <-> exists emp, lookup = Return (Some emp))
  /\ (fst (validateEmployeeNumber dataLayer id w) = Return tt
      <-> lookup = Return None)
  /\ (raises (fst (validateEmployee dataLayer id w))
      /\ raises (fst (validateEmployeeNumber dataLayer id w))
      <-> raises lookup)
  /\ snd (validateEmployee dataLayer id w)
     = snd (validateEmployeeNumber dataLayer id w)
  /\ trace (snd (validateEmployee dataLayer id w))
     = (trace w ++ [DataLayer.GetEmployee id])%list.
Proof.
  cbv zeta.
  unfold validateEmployee, validateEmployeeNumber, bind, await, throw, ret,
    raises.
  destruct (DataLayer.getEmployee dataLayer id (store w))
    as [[[emp|]|e] s1]; cbn [fst snd trace];
    (split; [|split; [|split; [|split; reflexivity]]]).
  - split; [intros _; exists emp; reflexivity | reflexivity].
  - split; discriminate.
  - split; [intros [[e He] _]; discriminate | intros [e He]; discriminate].
  - split; [discriminate | intros [emp He]; discriminate].
  - split; reflexivity.
  - split; [intros [_ [e He]]; discriminate | intros [e He]; discriminate].
  - split; [discriminate | intros [emp He]; discriminate].
  - split; discriminate.
  - split; [intros _; eexists; reflexivity|].
    intros _. split; eexists; reflexivity.
Qed.

(** X8. A manager is validated as an employee: for every [mngId] other
    than the number 0, [validateManager] passes exactly when
    [validateEmployee] does, after the same lookup. *)
Theorem validateManager_as_validateEmployee mngId w :
  strict_eq mngId (VNum 0) = false ->
  (fst (validateManager dataLayer mngId w) = Return tt
   <-> fst (validateEmployee dataLayer mngId w) = Return tt)
  /\ snd (validateManager dataLayer mngId w)
     = snd (validateEmployee dataLayer mngId w).
Proof.
  intros Hne.
  unfold validateManager, validateEmployee, bind, await, throw, ret.
  rewrite Hne.
  destruct (DataLayer.getEmployee dataLayer mngId (store w))
    as [[[emp|]|e] s1]; cbn [fst snd].
  - split; [tauto | reflexivity].
  - split; [split; discriminate | reflexivity].
  - split; [split; discriminate | reflexivity].
Qed.

(** X9. Only the number 0 is the sentinel: [validateManager] skips the
    lookup for it and for no other value, the string "0", null and
    undefined included. *)
Theorem validateManager_sentinel_only mngId w :
  trace (snd (validateManager dataLayer mngId w)) = trace w
  <-> mngId = VNum 0.
Proof.
  unfold validateManager, bind, await, throw, ret.
  destruct (strict_eq mngId (VNum 0)) eqn:Heq.
  - cbn [snd]. split; [intros _|reflexivity].
    destruct mngId as [| |b|n| |s]; try discriminate Heq.
    cbn in Heq. apply Z.eqb_eq in Heq. subst n. reflexivity.
  - split.
    + destruct (DataLayer.getEmployee dataLayer mngId (store w))
        as [[[emp|]|e] s1]; cbn [snd trace]; intros Ht;
        apply (f_equal (@length _)) in Ht; rewrite length_app in Ht;
        cbn in Ht; lia.
    + intros ->. discriminate Heq.
Qed.

End Employees.

(** ** Calendar days *)

Lemma civil_from_days_inj z1 z2 :
  civil_from_days z1 = civil_from_days z2 -> z1 = z2.
Proof.
  intros H.
  pose proof (days_from_civil_from_days z1) as H1.
  pose proof (days_from_civil_from_days z2) as H2.
  rewrite H in H1.
  destruct (civil_from_days z2) as [[y m] d]. congruence.
Qed.

(** The hour of the day counts the hours since the day began. *)
Lemma HourFromTime_Day t : HourFromTime t = t / msPerHour - 24 * Day t.
Proof.
  unfold HourFromTime, Day, msPerHour, msPerDay.
  replace 86400000 with (3600000 * 24) by reflexivity.
  rewrite <- Z.div_div by lia.
  Z.to_euclidean_division_equations; lia.
Qed.

Section CalendarDays.

Variable LocalTZA : Z.
Variable Date_parse : string -> number.

(** The three field comparisons amount to the equality of the days. *)
Lemma sameCalendarDay_iff a b :
  sameCalendarDay LocalTZA (Some a) (Some b) = true
  <-> Day (LocalTime LocalTZA a) = Day (LocalTime LocalTZA b).
Proof.
  unfold sameCalendarDay, getDate, getMonth, getFullYear, option_map, num_eq,
    DateFromTime, MonthFromTime, YearFromTime.
  split.
  - intros H. apply civil_from_days_inj.
    destruct (civil_from_days (Day (LocalTime LocalTZA a))) as [[y1 m1] d1].
    destruct (civil_from_days (Day (LocalTime LocalTZA b))) as [[y2 m2] d2].
    apply andb_prop in H as [H Hy]. apply andb_prop in H as [Hd Hm].
    apply Z.eqb_eq in Hy, Hd, Hm. f_equal; [f_equal|]; lia.
  - intros ->.
    destruct (civil_from_days (Day (LocalTime LocalTZA b))) as [[y2 m2] d2].
    rewrite !Z.eqb_refl. reflexivity.
Qed.

Lemma sameCalendarDay_NaN_r d : sameCalendarDay LocalTZA d NaN = false.
Proof. destruct d; reflexivity. Qed.

Lemma sameCalendarDay_NaN_l d : sameCalendarDay LocalTZA NaN d = false.
Proof. reflexivity. Qed.

(** The same-day test of [validateEndTime] is the negation of
    [sameCalendarDay]. *)
Lemma different_day_iff a b :
  num_neq (getDate LocalTZA (Some a)) (getDate LocalTZA (Some b))
  || num_neq (getMonth LocalTZA (Some a)) (getMonth LocalTZA (Some b))
  || num_neq (getFullYear LocalTZA (Some a)) (getFullYear LocalTZA (Some b))
  = negb (sameCalendarDay LocalTZA (Some a) (Some b)).
Proof.
  unfold sameCalendarDay, num_neq. rewrite !negb_andb. reflexivity.
Qed.

(** When [validateEndTime] passes. *)
Lemma validateEndTime_accepts startTime endTime :
  validateEndTime LocalTZA Date_parse startTime endTime = Return tt
  <-> exists s e,
        Date_parse startTime = Some s
        /\ Date_parse endTime = Some e
        /\ 1000 * 60 * 60 <= e - s
        /\ Day (LocalTime LocalTZA s) = Day (LocalTime LocalTZA e)
        /\ 8 <= HourFromTime (LocalTime LocalTZA e) <= 18.
Proof.
  destruct (Date_parse endTime) as [e|] eqn:He.
  - destruct (Date_parse startTime) as [s|] eqn:Hs.
    + rewrite (validateEndTime_parsed _ _ _ _ s e Hs He).
      rewrite different_day_iff.
      cbn [getHours option_map num_lt num_gt].
      destruct (Z.ltb_spec (e - s) 3600000) as [Hd|Hd].
      * split; [discriminate|].
        intros (s' & e' & Hs' & He' & Hge & _).
        injection Hs' as <-. injection He' as <-. lia.
      * destruct (sameCalendarDay LocalTZA (Some s) (Some e)) eqn:Hday;
          cbn [negb].
        -- apply sameCalendarDay_iff in Hday.
           destruct (Z.ltb_spec (HourFromTime (LocalTime LocalTZA e)) 8);
             destruct (Z.ltb_spec 18 (HourFromTime (LocalTime LocalTZA e)));
             cbn [orb];
             (split;
              [ try discriminate; intros _; exists s, e; repeat split;
                try assumption; lia
              | try reflexivity;
                intros (s' & e' & Hs' & He' & _ & _ & Hh);
                injection He' as <-; lia ]).
        -- split; [discriminate|].
           intros (s' & e' & Hs' & He' & _ & Hsame & _).
           injection Hs' as <-. injection He' as <-.
           apply sameCalendarDay_iff in Hsame.
           rewrite Hsame in Hday. discriminate.
    + rewrite (validateEndTime_start_unread _ _ _ _ e Hs He).
      split; [discriminate|].
      intros (s' & e' & Hs' & _). discriminate.
  - unfold validateEndTime. rewrite He. cbn. split; [discriminate|].
    intros (s' & e' & _ & He' & _). discriminate.
Qed.

(** X11. [validateEndTime] passes exactly when both strings are read,
    the end is at least one hour after the start, both fall on the same
    local calendar day, and the hour of the end is from 8 to 18.  The
    start is then less than 24 hours before the end, and its hour is at
    most 17, although no test reads the hour of the start. *)
Theorem validateEndTime_passes_iff startTime endTime :
  (validateEndTime LocalTZA Date_parse startTime endTime = Return tt
   <-> exists s e,
         Date_parse startTime = Some s
         /\ Date_parse endTime = Some e
         /\ 1000 * 60 * 60 <= e - s
         /\ Day (LocalTime LocalTZA s) = Day (LocalTime LocalTZA e)
         /\ 8 <= HourFromTime (LocalTime LocalTZA e) <= 18)
  /\ (validateEndTime LocalTZA Date_parse startTime endTime = Return tt ->
      exists s e,
        Date_parse startTime = Some s
        /\ Date_parse endTime = Some e
        /\ e - s < msPerDay
        /\ HourFromTime (LocalTime LocalTZA s) <= 17).
Proof.
  split; [apply validateEndTime_accepts|].
  intros Hok.
  apply validateEndTime_accepts in Hok as (s & e & Hs & He & Hge & Hday & Hh).
  exists s, e. split; [exact Hs|]. split; [exact He|].
  rewrite HourFromTime_Day in *. rewrite Hday.
  unfold Day, LocalTime, msPerDay, msPerHour in *.
  Z.to_euclidean_division_equations; lia.
Qed.

End CalendarDays.

(** ** Timecards *)

Section Timecards.

Variable S : Type.
Variable dataLayer : DataLayer.t S.
Variable LocalTZA : Z.
Variable Date_parse : string -> number.

(** X10. Once the timecards of the employee are listed,
    [validateNoDuplicateTimecard] raises exactly when the proposed start
    is read and a listed timecard has a start that is read and falls on
    the same local calendar day, whatever the times of day; otherwise it
    passes.  A start that cannot be read therefore never clashes, and an
    employee without timecards always passes. *)
Theorem validateNoDuplicateTimecard_raises_iff emp_id startTime w cards s1 :
  DataLayer.getAllTimecard dataLayer emp_id (store w) = (Return cards, s1) ->
  let run :=
    validateNoDuplicateTimecard dataLayer LocalTZA Date_parse emp_id
      startTime w in
  let clash :=
    exists t0 card t,
      Date_parse startTime = Some t0
      /\ In card cards
      /\ Date_parse (getStartTime card) = Some t
      /\ Day (LocalTime LocalTZA t) = Day (LocalTime LocalTZA t0) in
  (fst run = Throw (mkError msg_duplicate_timecard) <-> clash)
  /\ (fst run = Return tt <-> ~ clash)
  /\ snd run = mkWorld s1 (trace w ++ [DataLayer.GetAllTimecard emp_id]).
Proof.
  intros Hl. cbv zeta.
  unfold validateNoDuplicateTimecard, bind, await, throw, ret.
  rewrite Hl.
  match goal with
  | |- context [existsb ?f cards] => set (test := f)
  end.
  assert (Hex : existsb test cards = true
                <-> exists t0 card t,
                      Date_parse startTime = Some t0
                      /\ In card cards
                      /\ Date_parse (getStartTime card) = Some t
                      /\ Day (LocalTime LocalTZA t)
                         = Day (LocalTime LocalTZA t0)).
  { rewrite existsb_exists. unfold test. split.
    - intros [card [Hin Hsame]].
      destruct (Date_parse startTime) as [t0|];
        [|rewrite sameCalendarDay_NaN_r in Hsame; discriminate].
      destruct (Date_parse (getStartTime card)) as [t|] eqn:Hc;
        [|discriminate].
      apply sameCalendarDay_iff in Hsame.
      exists t0, card, t. repeat split; assumption.
    - intros (t0 & card & t & -> & Hin & Hc & Hday).
      exists card. split; [exact Hin|]. rewrite Hc.
      apply sameCalendarDay_iff. exact Hday. }
  destruct (existsb test cards); cbn [fst snd store trace].
  - split; [|split; [|reflexivity]].
    + split; [intros _; apply Hex; reflexivity | reflexivity].
    + split; [discriminate|]. intros Hn. exfalso. apply Hn, Hex. reflexivity.
  - split; [|split; [|reflexivity]].
    + split; [discriminate|]. intros Hc. apply Hex in Hc. discriminate.
    + split; [|reflexivity]. intros _ Hc. apply Hex in Hc. discriminate.
Qed.

End Timecards.

(** ** The start of a shift *)

Section WeekWindow.

Variable LocalTZA : Z.
Variable Date_parse : string -> number.

(** X15. The loop of [validateStartTime] ends within six rounds, on a
    Monday: more rounds change nothing.  The previous Monday it yields is
    a Monday and is not after the clock reading. *)
Theorem prevMonday_loop_ends_on_monday now :
  (forall fuel, (6 <= fuel)%nat ->
     prevMonday_loop LocalTZA fuel (Some now)
     = prevMonday_loop LocalTZA 6 (Some now))
  /\ getDay LocalTZA (prevMonday_loop LocalTZA 6 (Some now)) = Some 1
  /\ exists pm,
       previousMonday LocalTZA now = Some pm
       /\ WeekDay (LocalTime LocalTZA pm) = 1
       /\ pm <= now.
Proof.
  split; [intros fuel Hfuel; apply prevMonday_loop_fuel; exact Hfuel|].
  split; [apply prevMonday_loop_monday|].
  eexists. split; [apply previousMonday_spec|].
  pose proof (days_since_monday_range LocalTZA now) as Hr.
  unfold UTC, LocalTime.
  match goal with
  | |- context [MakeDate ?d 0 - LocalTZA + LocalTZA] =>
      replace (MakeDate d 0 - LocalTZA + LocalTZA) with (MakeDate d 0) by lia
  end.
  split.
  - rewrite WeekDay_MakeDate by (unfold msPerDay; lia).
    unfold days_since_monday, WeekDay, LocalTime in *.
    Z.to_euclidean_division_equations; lia.
  - pose proof (MakeDate_fields (now + LocalTZA)) as Hn.
    unfold MakeDate, TimeWithinDay, Day, LocalTime, msPerDay in *.
    Z.to_euclidean_division_equations; lia.
Qed.

(** The week test, on days. *)
Lemma not_before_previousMonday now t :
  num_lt (Some t) (previousMonday LocalTZA now) = false
  <-> Day (LocalTime LocalTZA now) - days_since_monday LocalTZA now
      <= Day (LocalTime LocalTZA t).
Proof.
  rewrite previousMonday_spec. unfold num_lt. rewrite Z.ltb_ge.
  unfold UTC, MakeDate, LocalTime. rewrite Z.add_0_r.
  generalize (Day (now + LocalTZA) - days_since_monday LocalTZA now).
  intros D. unfold Day, msPerDay.
  Z.to_euclidean_division_equations; lia.
Qed.

(** When [validateStartTime] passes. *)
Lemma validateStartTime_accepts now startTime :
  validateStartTime LocalTZA Date_parse now startTime = Return tt
  <-> exists t,
        Date_parse (replace " " "T" startTime) = Some t
        /\ 1 <= WeekDay (LocalTime LocalTZA t) <= 5
        /\ 8 <= HourFromTime (LocalTime LocalTZA t) <= 18
        /\ Day (LocalTime LocalTZA now) - days_since_monday LocalTZA now
           <= Day (LocalTime LocalTZA t)
        /\ t <= now.
Proof.
  destruct (Date_parse (replace " " "T" startTime)) as [t|] eqn:Hp.
  - pose proof (WeekDay_range (LocalTime LocalTZA t)) as Hwr.
    destruct (Z.eq_dec (WeekDay (LocalTime LocalTZA t)) 0) as [H0|H0];
      [|destruct (Z.eq_dec (WeekDay (LocalTime LocalTZA t)) 6) as [H6|H6]].
    + unfold validateStartTime. rewrite Hp.
      cbn [getTime isNaN getDay option_map num_eq]. rewrite H0. cbn.
      split; [discriminate|].
      intros (t' & Ht' & Hw & _). injection Ht' as <-. lia.
    + unfold validateStartTime. rewrite Hp.
      cbn [getTime isNaN getDay option_map num_eq]. rewrite H6. cbn.
      split; [discriminate|].
      intros (t' & Ht' & Hw & _). injection Ht' as <-. lia.
    + assert (Hw : 1 <= WeekDay (LocalTime LocalTZA t) <= 5) by lia.
      rewrite (validateStartTime_weekday _ _ now _ t Hp Hw).
      destruct (Z.ltb_spec (HourFromTime (LocalTime LocalTZA t)) 8);
        [|destruct (Z.ltb_spec 18 (HourFromTime (LocalTime LocalTZA t)))];
        cbn [orb].
      * split; [discriminate|].
        intros (t' & Ht' & _ & Hh & _). injection Ht' as <-. lia.
      * split; [discriminate|].
        intros (t' & Ht' & _ & Hh & _). injection Ht' as <-. lia.
      * destruct (num_lt (Some t) (previousMonday LocalTZA now)) eqn:Hm;
          cbn [orb].
        -- split; [discriminate|].
           intros (t' & Ht' & _ & _ & Hd & _). injection Ht' as <-.
           apply not_before_previousMonday in Hd.
           rewrite Hd in Hm. discriminate.
        -- apply not_before_previousMonday in Hm.
           destruct (Z.ltb_spec now t).
           ++ split; [discriminate|].
              intros (t' & Ht' & _ & _ & _ & Hn). injection Ht' as <-. lia.
           ++ split; [|reflexivity]. intros _. exists t.
              repeat split; try assumption; lia.
  - unfold validateStartTime. rewrite Hp. cbn.
    split; [discriminate|]. intros (t' & Ht' & _). discriminate.
Qed.

(** X12. [validateStartTime] passes exactly when the string, its first
    space made a T, is read as a time that falls on Monday to Friday, in
    hour 8 to 18, on a day from the Monday of the current week to today,
    and not after the clock reading.  An accepted start is less than
    seven days old. *)
Theorem validateStartTime_passes_iff now startTime :
  (validateStartTime LocalTZA Date_parse now startTime = Return tt
   <-> exists t,
         Date_parse (replace " " "T" startTime) = Some t
         /\ 1 <= WeekDay (LocalTime LocalTZA t) <= 5
         /\ 8 <= HourFromTime (LocalTime LocalTZA t) <= 18
         /\ Day (LocalTime LocalTZA now) - days_since_monday LocalTZA now
            <= Day (LocalTime LocalTZA t)
         /\ t <= now)
  /\ (validateStartTime LocalTZA Date_parse now startTime = Return tt ->
      exists t,
        Date_parse (replace " " "T" startTime) = Some t
        /\ now - 7 * msPerDay < t <= now).
Proof.
  split; [apply validateStartTime_accepts|].
  intros Hok.
  apply validateStartTime_accepts in Hok as (t & Hp & _ & _ & Hd & Hn).
  exists t. split; [exact Hp|]. split; [|exact Hn].
  pose proof (days_since_monday_range LocalTZA now) as Hr.
  unfold Day, LocalTime, msPerDay in *.
  Z.to_euclidean_division_equations; lia.
Qed.

(** X13. When the clock reads a Monday, the week starts that day: an
    accepted start is of the day of the clock reading. *)
Theorem validateStartTime_on_monday now startTime :
  WeekDay (LocalTime LocalTZA now) = 1 ->
  validateStartTime LocalTZA Date_parse now startTime = Return tt ->
  exists t,
    Date_parse (replace " " "T" startTime) = Some t
    /\ Day (LocalTime LocalTZA t) = Day (LocalTime LocalTZA now).
Proof.
  intros Hmon Hok.
  apply validateStartTime_accepts in Hok as (t & Hp & _ & _ & Hd & Hn).
  exists t. split; [exact Hp|].
  apply days_since_monday_zero in Hmon. rewrite Hmon in Hd.
  unfold Day, LocalTime, msPerDay in *.
  Z.to_euclidean_division_equations; lia.
Qed.

Lemma replace_no_space a :
  no_space a = true -> replace " " "T" a = a.
Proof.
  induction a as [|c a IH]; [reflexivity|].
  cbn [no_space replace]. intros H. apply andb_prop in H as [Hc Ha].
  apply negb_true_iff in Hc. rewrite Hc, (IH Ha). reflexivity.
Qed.

Lemma replace_first_space a b :
  no_space a = true ->
  replace " " "T" (a ++ String " " b) = a ++ String "T" b.
Proof.
  induction a as [|c a IH]; [reflexivity|].
  cbn [no_space replace String.append]. intros H.
  apply andb_prop in H as [Hc Ha].
  apply negb_true_iff in Hc. rewrite Hc, (IH Ha). reflexivity.
Qed.

Lemma no_space_T a b :
  no_space a = true -> no_space b = true ->
  no_space (a ++ String "T" b) = true.
Proof.
  intros Ha Hb. induction a as [|c a IH]; [exact Hb|].
  cbn [no_space String.append] in *. apply andb_prop in Ha as [Hc Ha].
  rewrite Hc, (IH Ha). reflexivity.
Qed.

(** X14. The date and the time may be separated by a space or by a T:
    for a date part and a time part without spaces, [validateStartTime]
    gives the same outcome on both writings. *)
Theorem validateStartTime_separator now date time :
  no_space date = true ->
  no_space time = true ->
  validateStartTime LocalTZA Date_parse now (date ++ String " " time)
  = validateStartTime LocalTZA Date_parse now (date ++ String "T" time).
Proof.
  intros Hd Ht. unfold validateStartTime.
  rewrite (replace_first_space date time Hd).
  rewrite (replace_no_space (date ++ String "T" time)); [reflexivity|].
  apply no_space_T; assumption.
Qed.

(** X18. What an accepted timecard looks like.  For a start written
    without a space, so that both validators read the same string, when
    [validateStartTime] and [validateEndTime] pass, the start and the end
    are on the same day, a Monday to Friday, the start is in hour 8 to
    17 and the end in hour 9 to 18, and the shift lasts from one hour to
    less than eleven. *)
Theorem accepted_timecard now startTime endTime :
  no_space startTime = true ->
  validateStartTime LocalTZA Date_parse now startTime = Return tt ->
  validateEndTime LocalTZA Date_parse startTime endTime = Return tt ->
  exists s e,
    Date_parse startTime = Some s
    /\ Date_parse endTime = Some e
    /\ Day (LocalTime LocalTZA s) = Day (LocalTime LocalTZA e)
    /\ 1 <= WeekDay (LocalTime LocalTZA s) <= 5
    /\ WeekDay (LocalTime LocalTZA e) = WeekDay (LocalTime LocalTZA s)
    /\ 8 <= HourFromTime (LocalTime LocalTZA s) <= 17
    /\ 9 <= HourFromTime (LocalTime LocalTZA e) <= 18
    /\ 1000 * 60 * 60 <= e - s < 11 * msPerHour
    /\ s <= now.
Proof.
  intros Hsp Hstart Hend.
  apply validateStartTime_accepts in Hstart as (t & Hp & Hw & Hh & _ & Hn).
  rewrite (replace_no_space _ Hsp) in Hp.
  apply validateEndTime_accepts in Hend as (s & e & Hs & He & Hge & Hday & Hhe).
  rewrite Hp in Hs. injection Hs as <-.
  exists t, e. split; [exact Hp|]. split; [exact He|]. split; [exact Hday|].
  split; [exact Hw|].
  split; [unfold WeekDay; rewrite Hday; reflexivity|].
  rewrite (HourFromTime_Day (LocalTime LocalTZA t)) in *.
  rewrite (HourFromTime_Day (LocalTime LocalTZA e)) in *.
  split; [|split; [|split; [|exact Hn]]].
  all: unfold Day, LocalTime, msPerDay, msPerHour in *.
  all: Z.to_euclidean_division_equations; lia.
Qed.

End WeekWindow.

(** ** The hire date, message by message *)

Section HireDateMessages.

Variable LocalTZA : Z.

(** [validateHireDate] by the parsed date. *)
Lemma validateHireDate_run now hireDate :
  validateHireDate LocalTZA now hireDate =
    match parse_YYYY_MM_DD hireDate with
    | None => Throw (mkError msg_hire_invalid)
    | Some (y, m, d) =>
        if now <? days_from_civil y m d * msPerDay - LocalTZA
        then Throw (mkError msg_hire_invalid)
        else if 6 <=? isoWeekday_of_day (days_from_civil y m d)
             then Throw (mkError msg_hire_weekend)
             else Return tt
    end.
Proof.
  unfold validateHireDate, moment_YYYY_MM_DD.
  destruct (parse_YYYY_MM_DD hireDate) as [[[y m] d]|] eqn:Hp;
    [|reflexivity].
  pose proof (parse_YYYY_MM_DD_month _ _ _ _ Hp) as Hm.
  rewrite (isoWeekday_Date_of_fields LocalTZA y m d Hm).
  unfold Date_of_fields. rewrite (MakeDay_civil y m d Hm).
  cbn [isValid isNaN negb orb isAfter num_gt num_lt num_ge].
  unfold UTC, MakeDate. rewrite Z.add_0_r. reflexivity.
Qed.

(** X16. The future is tested before the weekend: [validateHireDate]
    reports a weekend exactly for a date of the calendar that is a
    Saturday or a Sunday and has begun, and reports an invalid or future
    date for every string that is not a date and every date that has not
    begun, a coming Saturday included. *)
Theorem validateHireDate_messages now hireDate :
  (validateHireDate LocalTZA now hireDate = Throw (mkError msg_hire_weekend)
   <-> exists y m d,
         parse_YYYY_MM_DD hireDate = Some (y, m, d)
         /\ days_from_civil y m d * msPerDay - LocalTZA <= now
         /\ 6 <= isoWeekday_of_day (days_from_civil y m d))
  /\ (validateHireDate LocalTZA now hireDate
        = Throw (mkError msg_hire_invalid)
      <-> parse_YYYY_MM_DD hireDate = None
          \/ exists y m d,
               parse_YYYY_MM_DD hireDate = Some (y, m, d)
               /\ now < days_from_civil y m d * msPerDay - LocalTZA).
Proof.
  rewrite validateHireDate_run.
  destruct (parse_YYYY_MM_DD hireDate) as [[[y m] d]|].
  - destruct (Z.ltb_spec now (days_from_civil y m d * msPerDay - LocalTZA));
      [|destruct (Z.leb_spec 6 (isoWeekday_of_day (days_from_civil y m d)))].
    + split; split.
      * discriminate.
      * intros (y' & m' & d' & Hp & Hn & _). injection Hp as <- <- <-. lia.
      * intros _. right. exists y, m, d. split; [reflexivity | assumption].
      * reflexivity.
    + split; split.
      * intros _. exists y, m, d. repeat split; assumption.
      * reflexivity.
      * discriminate.
      * intros [Hp | (y' & m' & d' & Hp & Hn)]; [discriminate|].
        injection Hp as <- <- <-. lia.
    + split; split.
      * discriminate.
      * intros (y' & m' & d' & Hp & _ & Hw). injection Hp as <- <- <-. lia.
      * discriminate.
      * intros [Hp | (y' & m' & d' & Hp & Hn)]; [discriminate|].
        injection Hp as <- <- <-. lia.
  - split; split.
    + discriminate.
    + intros (y' & m' & d' & Hp & _). discriminate.
    + intros _. left. reflexivity.
    + reflexivity.
Qed.

(** X17. Time only helps a hire date: a date accepted at one clock
    reading is accepted at every later one, and a date refused as a
    weekend is refused as a weekend at every later one. *)
Theorem validateHireDate_monotone now later hireDate :
  now <= later ->
  (validateHireDate LocalTZA now hireDate = Return tt ->
   validateHireDate LocalTZA later hireDate = Return tt)
  /\ (validateHireDate LocalTZA now hireDate
        = Throw (mkError msg_hire_weekend) ->
      validateHireDate LocalTZA later hireDate
        = Throw (mkError msg_hire_weekend)).
Proof.
  intros Hle. rewrite !validateHireDate_run.
  destruct (parse_YYYY_MM_DD hireDate) as [[[y m] d]|];
    [|split; discriminate].
  destruct (Z.ltb_spec now (days_from_civil y m d * msPerDay - LocalTZA));
    [split; discriminate|].
  destruct (Z.ltb_spec later (days_from_civil y m d * msPerDay - LocalTZA));
    [lia|].
  split; intros Hsame; exact Hsame.
Qed.

End HireDateMessages.

(** ** Runs of the further properties *)

Lemma validateDepartmentUpdate_unique_iff_witness :
  exists dept,
    In dept (departments acme)
    /\ strict_eq (getDeptNo dept) (dept_no patch_taken_number) = true
    /\ strict_eq (getId dept) (dept_id patch_taken_number) = false.
Proof.
  destruct (validateDepartmentUpdate_unique_iff Tables memoryLayer
              patch_taken_number (start_world acme) research acme
              (departments acme) acme)
    as (r & w' & Hrun & _ & Hiff & _).
  - reflexivity.
  - reflexivity.
  - reflexivity.
  - apply Hiff. vm_compute in Hrun. injection Hrun as <- _.
    left. reflexivity.
Defined.

Lemma validateDepartmentUpdate_valid_iff_witness :
  truthy (dept_id patch_rename) = true
  /\ truthy (company patch_rename) = true
  /\ exists d s1,
       DataLayer.getDepartment memoryLayer (company patch_rename)
         (dept_id patch_rename) (store (start_world acme))
       = (Return (Some d), s1)
       /\ (dept_no_changes patch_rename d = false
           \/ exists allDepartments s2,
                DataLayer.getAllDepartment memoryLayer (company patch_rename)
                  s1 = (Return allDepartments, s2)
                /\ existsb (clashes patch_rename) allDepartments = false).
Proof.
  apply (validateDepartmentUpdate_valid_iff Tables memoryLayer patch_rename
           (start_world acme) (mkResult true [] (Some research))
           (mkWorld acme [DataLayer.GetDepartment (VStr "acme") (VNum 2);
                          DataLayer.GetAllDepartment (VStr "acme")])).
  - reflexivity.
  - reflexivity.
Defined.

Lemma updateDepartment_invalid_never_writes_witness :
  updateDepartment memoryLayer patch_taken_number (start_world acme)
  = (Throw (mkError
       "Validation failed: Department number must be unique across all companies"),
     mkWorld acme [DataLayer.GetDepartment (VStr "acme") (VNum 2);
                   DataLayer.GetAllDepartment (VStr "acme")]).
Proof.
  destruct (updateDepartment_invalid_never_writes Tables memoryLayer
              patch_taken_number (start_world acme) result_taken_number
              (mkWorld acme [DataLayer.GetDepartment (VStr "acme") (VNum 2);
                             DataLayer.GetAllDepartment (VStr "acme")]))
    as [Hrun _].
  - reflexivity.
  - reflexivity.
  - exact Hrun.
Defined.

Lemma updateDepartment_writes_patched_record_witness :
  trace (snd (updateDepartment memoryLayer patch_rename (start_world acme)))
  = [DataLayer.GetDepartment (VStr "acme") (VNum 2);
     DataLayer.GetAllDepartment (VStr "acme");
     DataLayer.UpdateDepartment
       (mkDepartment (VStr "acme") (VNum 2) (VStr "Labs") (VStr "D30")
          (VStr "Austin"))].
Proof.
  destruct (updateDepartment_writes_patched_record Tables memoryLayer
              patch_rename (start_world acme)
              (mkResult true [] (Some research))
              (mkWorld acme [DataLayer.GetDepartment (VStr "acme") (VNum 2);
                             DataLayer.GetAllDepartment (VStr "acme")]))
    as (d & s1 & H1 & _ & _ & Htrace & _).
  - reflexivity.
  - reflexivity.
  - rewrite Htrace. vm_compute in H1. injection H1 as <- _. reflexivity.
Defined.

Lemma missing_department_is_refused_witness :
  validateDepartment memoryLayer (VStr "acme") (VNum 99) (start_world acme)
  = (Throw (mkError
       "Invalid department ID: 99 does not exist in company 'acme'."),
     mkWorld acme [DataLayer.GetDepartment (VStr "acme") (VNum 99)])
  /\ updateDepartment memoryLayer patch_unknown (start_world acme)
     = (Throw (mkError "Validation failed: Department not found"),
        mkWorld acme [DataLayer.GetDepartment (VStr "acme") (VNum 99)]).
Proof.
  apply (missing_department_is_refused Tables memoryLayer patch_unknown
           (start_world acme) acme).
  reflexivity.
Defined.

Lemma validateManager_as_validateEmployee_witness :
  fst (validateManager memoryLayer (VNum 7) (start_world acme)) = Return tt
  <-> fst (validateEmployee memoryLayer (VNum 7) (start_world acme))
      = Return tt.
Proof.
  destruct (validateManager_as_validateEmployee Tables memoryLayer (VNum 7)
              (start_world acme)) as [Hiff _].
  - reflexivity.
  - exact Hiff.
Defined.

Lemma validateNoDuplicateTimecard_raises_iff_witness :
  fst (validateNoDuplicateTimecard memoryLayer 0 (parseDateTime 0) (VNum 7)
         "2024-01-03 15:00:00" (start_world acme_with_card))
  = Throw (mkError msg_duplicate_timecard).
Proof.
  destruct (validateNoDuplicateTimecard_raises_iff Tables memoryLayer 0
              (parseDateTime 0) (VNum 7) "2024-01-03 15:00:00"
              (start_world acme_with_card) [card_wednesday] acme_with_card)
    as [Hiff _].
  - reflexivity.
  - apply Hiff. exists 1704294000000, card_wednesday, 1704272400000.
    repeat split. left. reflexivity.
Defined.

Lemma validateStartTime_on_monday_witness :
  exists t,
    parseDateTime 0 (replace " " "T" "2024-01-01 09:00:00") = Some t
    /\ Day (LocalTime 0 t) = Day (LocalTime 0 monday_10_00).
Proof.
  apply (validateStartTime_on_monday 0 (parseDateTime 0) monday_10_00
           "2024-01-01 09:00:00").
  - reflexivity.
  - vm_compute. reflexivity.
Defined.

Lemma validateStartTime_separator_witness :
  validateStartTime 0 (parseDateTime 0) wednesday_18_30 "2024-01-03 09:00:00"
  = validateStartTime 0 (parseDateTime 0) wednesday_18_30
      "2024-01-03T09:00:00".
Proof.
  apply (validateStartTime_separator 0 (parseDateTime 0) wednesday_18_30
           "2024-01-03" "09:00:00").
  - reflexivity.
  - reflexivity.
Defined.

Lemma validateHireDate_monotone_witness :
  validateHireDate 0 wednesday_18_30 "2024-01-01" = Return tt.
Proof.
  destruct (validateHireDate_monotone 0 monday_10_00 wednesday_18_30
              "2024-01-01") as [Hok _].
  - unfold monday_10_00, wednesday_18_30. lia.
  - apply Hok. vm_compute. reflexivity.
Defined.

Lemma accepted_timecard_witness :
  exists s e,
    parseDateTime 0 "2024-01-03T09:00:00" = Some s
    /\ parseDateTime 0 "2024-01-03T17:00:00" = Some e
    /\ Day (LocalTime 0 s) = Day (LocalTime 0 e)
    /\ 1 <= WeekDay (LocalTime 0 s) <= 5
    /\ WeekDay (LocalTime 0 e) = WeekDay (LocalTime 0 s)
    /\ 8 <= HourFromTime (LocalTime 0 s) <= 17
    /\ 9 <= HourFromTime (LocalTime 0 e) <= 18
    /\ 1000 * 60 * 60 <= e - s < 11 * msPerHour
    /\ s <= wednesday_18_30.
Proof.
  apply (accepted_timecard 0 (parseDateTime 0) wednesday_18_30
           "2024-01-03T09:00:00" "2024-01-03T17:00:00").
  - reflexivity.
  - vm_compute. reflexivity.
  - vm_compute. reflexivity.
Defined.
